(** * ZavaChatbot: incremental response delivery

    A shallow embedding of [src/frontend/src/components/zava/ZavaChatbot.tsx]:
    the replay scheduler [simulateStreamingResponse], the submission handler
    [handleSendMessage] with its live stream loop, and [handleReset].

    JavaScript strings are modelled by [string], one [ascii] per code unit
    below 256.  Time values (milliseconds) are the numbers of the language,
    IEEE 754 doubles ([float]), with their own subtraction and division. *)

From Stdlib Require Import Floats.PrimFloat.
From Stdlib Require FloatOps SpecFloat Uint63.
From Stdlib Require Import Bool Arith NArith ZArith QArith Qabs Lia List.
From Stdlib Require Import Ascii String DecimalString.
From Stdlib Require DecimalN DecimalPos.
Import ListNotations.

Local Close Scope Q_scope.
Local Open Scope nat_scope.
Local Open Scope list_scope.
Local Open Scope string_scope.

(** ** String primitives of the platform *)

Module JsString.

(** [s.split(c)] for a separator of one character: never empty. *)
Fixpoint split (sep : ascii) (s : string) : list string :=
  match s with
  | EmptyString => [EmptyString]
  | String c s' =>
      if Ascii.eqb c sep then EmptyString :: split sep s'
      else match split sep s' with
           | [] => [String c EmptyString]
           | w :: ws => String c w :: ws
           end
  end.

(** [l.join(sep)]. *)
Fixpoint join (sep : string) (l : list string) : string :=
  match l with
  | [] => EmptyString
  | w :: ws =>
      match ws with
      | [] => w
      | _ :: _ => w ++ sep ++ join sep ws
      end
  end.

(** [l.slice(i, j)] on arrays, for [0 <= i <= j]; both ends are clamped
    to the length. *)
Definition slice {A : Type} (i j : nat) (l : list A) : list A :=
  firstn (j - i) (skipn i l).

(** White space as [String.prototype.trim] sees it, among the code units
    below 256: TAB, LF, VT, FF, CR, SP and NBSP. *)
Definition is_white_space (c : ascii) : bool :=
  let n := nat_of_ascii c in
  (((9 <=? n) && (n <=? 13)) || (n =? 32) || (n =? 160))%nat.

Fixpoint trimStart (s : string) : string :=
  match s with
  | EmptyString => EmptyString
  | String c s' => if is_white_space c then trimStart s' else s
  end.

Fixpoint trimEnd (s : string) : string :=
  match s with
  | EmptyString => EmptyString
  | String c s' =>
      match trimEnd s' with
      | EmptyString => if is_white_space c then EmptyString else String c EmptyString
      | String _ _ as t => String c t
      end
  end.

(** [s.trim()]. *)
Definition trim (s : string) : string := trimEnd (trimStart s).

(** [s.startsWith(p)]. *)
Definition startsWith (p s : string) : bool := String.prefix p s.

(** [s.slice(n)] on strings, for [0 <= n]. *)
Fixpoint drop (n : nat) (s : string) : string :=
  match n, s with
  | O, _ => s
  | S _, EmptyString => EmptyString
  | S n', String _ s' => drop n' s'
  end.

(** [n.toString()] for a natural number. *)
Definition toString (n : N) : string :=
  NilZero.string_of_uint (N.to_uint n).

(** JavaScript truthiness of a string. *)
Definition truthy (s : string) : bool := negb (String.eqb s EmptyString).

End JsString.

Import JsString.

(** ** Messages and their updates *)

Inductive Role : Set := user | assistant.

(** [interface Message]. *)
Record Message : Set := mkMessage {
  id : string;
  role : Role;
  content : string;
  timestamp : N;
  modelName : option string
}.

(** The three object spreads the component writes inside
    [prev.map(msg => msg.id === assistantMessageId ? ... : msg)]. *)
Inductive Rewrite : Set :=
| WithContent (c : string)                 (* { ...msg, content: c } *)
| WithModelName (m : string)               (* { ...msg, modelName: m } *)
| WithContentNoModel (c : string).         (* { ...msg, content: c, modelName: undefined } *)

Definition rewrite_msg (r : Rewrite) (msg : Message) : Message :=
  match r with
  | WithContent c =>
      mkMessage (id msg) (role msg) c (timestamp msg) (modelName msg)
  | WithModelName m =>
      mkMessage (id msg) (role msg) (content msg) (timestamp msg) (Some m)
  | WithContentNoModel c =>
      mkMessage (id msg) (role msg) c (timestamp msg) None
  end.

(** One call [setMessages(prev => prev.map(...))]: the id compared against
    and the spread applied to the entries that match. *)
Record Update : Set := mkUpdate {
  target : string;
  change : Rewrite
}.

Definition apply_update (u : Update) (prev : list Message) : list Message :=
  map (fun msg => if String.eqb (id msg) (target u)
                  then rewrite_msg (change u) msg else msg) prev.

(** ** The replay scheduler *)

(** What an [async] function of the component does, in order: suspensions
    and state setter calls. *)
Inductive Action : Set :=
| Sleep (ms : float)          (* await new Promise(r => setTimeout(r, ms)) *)
| AwaitFetch                  (* await fetch(...) *)
| AwaitRead                   (* await reader.read() *)
| SetMessages (u : Update)
| SetIsLoading (b : bool).

(** [for (let i = 0; i < words.length; i += wordsPerChunk) chunks.push(...)].
    When [wordsPerChunk] is 0 the condition never fails and the array grows
    until [chunks.push] raises [RangeError].  The fuel bounds the number of
    tests of the condition, and [None] stands for that exception. *)
Fixpoint chunk_loop (fuel : nat) (words : list string) (wordsPerChunk i : nat)
                    (chunks : list string) : option (list string) :=
  match fuel with
  | O => None
  | S fuel' =>
      if (i <? List.length words)%nat
      then chunk_loop fuel' words wordsPerChunk (i + wordsPerChunk)
             (chunks ++ [(join " " (slice i (i + wordsPerChunk) words) ++ " ")%string])%list
      else Some chunks
  end.

Definition split_chunks (words : list string) (wordsPerChunk : nat)
  : option (list string) :=
  chunk_loop (S (List.length words)) words wordsPerChunk 0 [].

(** The length of an array as a number; exact below 2^53. *)
Definition number_of_nat (n : nat) : float :=
  PrimFloat.of_uint63 (Uint63.of_Z (Z.of_nat n)).

(** [delayPerChunk = chunks.length > 1 ? streamingDuration / chunks.length : 0],
    with [streamingDuration = totalDurationMs - startDelayMs]: both
    operations are those of doubles, rounded to nearest. *)
Definition delayPerChunk (startDelayMs totalDurationMs : float) (n : nat)
  : float :=
  if (1 <? n)%nat
  then ((totalDurationMs - startDelayMs) / number_of_nat n)%float
  else 0%float.

(** The emission loop, from chunk [i] on. *)
Fixpoint stream_loop (chunks : list string) (delay : float)
                     (assistantMessageId accumulatedContent : string)
  : list Action :=
  match chunks with
  | [] => []
  | c :: rest =>
      let accumulatedContent := accumulatedContent ++ c in
      SetMessages (mkUpdate assistantMessageId
                     (WithContent (trim accumulatedContent)))
      :: match rest with
         | [] => []
         | _ :: _ => Sleep delay :: stream_loop rest delay assistantMessageId
                                      accumulatedContent
         end
  end.

(** [simulateStreamingResponse]; [None] when the chunking loop raises
    [RangeError], which happens once the start delay has passed. *)
Definition simulateStreamingResponse
    (response : string) (startDelayMs totalDurationMs : float)
    (wordsPerChunk : nat) (assistantMessageId modelName : string)
  : option (list Action) :=
  let words := split " " response in
  match split_chunks words wordsPerChunk with
  | None => None
  | Some chunks =>
      let delay := delayPerChunk startDelayMs totalDurationMs (List.length chunks) in
      Some (Sleep startDelayMs
            :: (stream_loop chunks delay assistantMessageId EmptyString
                ++ [SetMessages (mkUpdate assistantMessageId
                                   (WithModelName modelName))])%list)
  end.

(** ** The live event stream *)

(** The object a [data: ] line carries, read through the four fields the
    loop looks at.  The fields are typed as the transport format gives them:
    [content], [model] and [error] are texts, [done] is a boolean, each
    optional.  Objects whose fields hold other kinds of values are outside
    the model. *)
Record Payload : Set := mkPayload {
  data_content : option string;
  data_model : option string;
  data_error : option string;
  data_done : option bool
}.

(** [if (data.f)] for a text field: the field when it is present and not
    empty. *)
Definition truthy_field (f : option string) : option string :=
  match f with
  | Some s => if truthy s then Some s else None
  | None => None
  end.

(** What [reader.read()] yields, call after call: fragments of decoded
    text, then the end of the stream or a transport failure. *)
Inductive Body : Set :=
| EndOfStream
| ReadFails
| Fragment (value : string) (rest : Body).

(** What [await fetch(...)] yields. *)
Inductive FetchResult : Set :=
| FetchThrows
| FetchResponse (ok : bool) (body : option Body).

Definition LF : ascii := "010"%char.

Definition apology_live : string :=
  "I apologize, but I encountered an error. Please try again later.".
Definition apology_replay : string :=
  "I apologize, but I encountered an error in replay mode. Please try again.".
Definition apology_empty : string :=
  "I apologize, but I couldn't generate a response. Please try again.".

Section Live.

(** [JSON.parse] followed by the reads of the fields; [None] when an
    exception is raised before any field is read ([SyntaxError], or
    [TypeError] on the text [null]). *)
Variable JSON_parse : string -> option Payload.

(** The body of [for (const line of lines)]: the local variables
    [accumulatedContent] and [isDone] before and after, and the setter
    calls made.  The [throw] on [data.error] sits inside the [try] whose
    handler skips lines that do not parse, so it ends the line and nothing
    else. *)
Definition process_line (assistantMessageId : string)
    (vars : string * bool) (line : string) : (string * bool) * list Action :=
  let '(accumulatedContent, isDone) := vars in
  if startsWith "data: " line then
    match JSON_parse (drop 6 line) with
    | None => (vars, [])
    | Some data =>
        match truthy_field (data_error data) with
        | Some _ => (vars, [])
        | None =>
            let '(accumulatedContent, shown) :=
              match truthy_field (data_content data) with
              | Some c =>
                  let accumulatedContent := accumulatedContent ++ c in
                  (accumulatedContent,
                   [SetMessages (mkUpdate assistantMessageId
                                   (WithContent accumulatedContent))])
              | None => (accumulatedContent, [])
              end in
            let named :=
              match truthy_field (data_model data) with
              | Some m => [SetMessages (mkUpdate assistantMessageId
                                          (WithModelName m))]
              | None => []
              end in
            let isDone :=
              match data_done data with
              | Some true => true
              | _ => isDone
              end in
            ((accumulatedContent, isDone), (shown ++ named)%list)
        end
    end
  else (vars, []).

Fixpoint process_lines (assistantMessageId : string)
    (vars : string * bool) (lines : list string)
  : (string * bool) * list Action :=
  match lines with
  | [] => (vars, [])
  | line :: rest =>
      let '(vars1, acts1) := process_line assistantMessageId vars line in
      let '(vars2, acts2) := process_lines assistantMessageId vars1 rest in
      (vars2, (acts1 ++ acts2)%list)
  end.

(** The [catch (error)] handler of the live path. *)
Definition catch_live (assistantMessageId : string) : list Action :=
  [SetMessages (mkUpdate assistantMessageId (WithContentNoModel apology_live))].

(** [if (!accumulatedContent) setMessages(...)] after the loop. *)
Definition after_loop (assistantMessageId accumulatedContent : string)
  : list Action :=
  if truthy accumulatedContent then []
  else [SetMessages (mkUpdate assistantMessageId
                       (WithContentNoModel apology_empty))].

(** [while (!isDone) { ... }], entered with [isDone = false], and what
    follows it inside the [try]. *)
Fixpoint read_loop (assistantMessageId : string) (body : Body)
    (accumulatedContent : string) : list Action :=
  AwaitRead ::
  match body with
  | EndOfStream => after_loop assistantMessageId accumulatedContent
  | ReadFails => catch_live assistantMessageId
  | Fragment value rest =>
      let '((accumulatedContent, isDone), acts) :=
        process_lines assistantMessageId (accumulatedContent, false)
          (split LF value) in
      (acts ++
       if isDone then after_loop assistantMessageId accumulatedContent
       else read_loop assistantMessageId rest accumulatedContent)%list
  end.

(** The live path of [handleSendMessage], from [fetch] to [finally]. *)
Definition live_delivery (assistantMessageId : string) (res : FetchResult)
  : list Action :=
  (AwaitFetch ::
   match res with
   | FetchThrows => catch_live assistantMessageId
   | FetchResponse false _ => catch_live assistantMessageId
   | FetchResponse true None => catch_live assistantMessageId
   | FetchResponse true (Some body) => read_loop assistantMessageId body EmptyString
   end ++ [SetIsLoading false])%list.

End Live.

(** ** The component state and the submission handler *)

Inductive ModelType : Set := Router | Benchmark.

(** One entry of [replayData.zavaScenarios[text].router] or [.benchmark]. *)
Record ReplayData : Set := mkReplayData {
  response : string;
  startStreamingMs : float;
  finishStreamingMs : float;
  wordsPerChunk : nat;
  model : string
}.

(** [replayData.zavaScenarios[text]]; a mode without an entry reads as
    [undefined]. *)
Record Scenario : Set := mkScenario {
  router : option ReplayData;
  benchmark : option ReplayData
}.

(** The [useState] cells that the handlers read or write. *)
Record State : Set := mkState {
  messages : list Message;
  inputValue : string;
  isLoading : bool;
  modelType : ModelType;
  showSuggestions : bool
}.

(** What a call of [handleSendMessage] reads from outside the component:
    the stored offline flag, the replay table, the clock at its four reads,
    and the answer of the backend. *)
Record Env : Set := mkEnv {
  offlineMode_stored : bool;
  zavaScenarios : string -> option Scenario;
  now_user : N;
  date_user : N;
  now_assistant : N;
  date_assistant : N;
  fetched : FetchResult
}.

Definition greeting : string :=
  "Hi! I'm the Zava AI assistant. I can help you with questions about our smart sportswear technology, products, and performance tracking. How can I help you today?".

Definition initialMessages (date : N) : list Message :=
  [mkMessage "1" assistant greeting date None].

(** [handleReset]; no timer is cleared and no request is aborted. *)
Definition handleReset (date : N) (st : State) : State :=
  mkState (initialMessages date) EmptyString false Router true.

(** [customMessage || inputValue.trim()]. *)
Definition messageToSend (customMessage : option string) (st : State) : string :=
  match customMessage with
  | Some m => if truthy m then m else trim (inputValue st)
  | None => trim (inputValue st)
  end.

Section Submission.

Variable JSON_parse : string -> option Payload.

(** The replay branch of [handleSendMessage]: [try], [catch], [finally].
    The [catch] handles alike the [TypeError] raised when the scenario has
    no entry for the mode and the [RangeError] of the chunking loop. *)
Definition replay_delivery (assistantMessageId : string)
    (dataToUse : option ReplayData) : list Action :=
  match dataToUse with
  | None =>
      [SetMessages (mkUpdate assistantMessageId
                      (WithContentNoModel apology_replay));
       SetIsLoading false]
  | Some d =>
      match simulateStreamingResponse (response d) (startStreamingMs d)
              (finishStreamingMs d) (wordsPerChunk d) assistantMessageId
              (model d) with
      | Some acts => (acts ++ [SetIsLoading false])%list
      | None =>
          [Sleep (startStreamingMs d);
           SetMessages (mkUpdate assistantMessageId
                          (WithContentNoModel apology_replay));
           SetIsLoading false]
      end
  end.

(** [handleSendMessage]: the state when the call first suspends (or
    returns), and what the call does from then on. *)
Definition handleSendMessage (env : Env) (customMessage : option string)
    (st : State) : State * list Action :=
  let messageToSend := messageToSend customMessage st in
  if negb (truthy messageToSend) || isLoading st then (st, [])
  else
    let userMessage :=
      mkMessage (toString (now_user env)) user messageToSend
                (date_user env) None in
    let assistantMessageId := toString (now_assistant env + 1) in
    let assistantMessage :=
      mkMessage assistantMessageId assistant EmptyString (date_assistant env) None in
    let st' :=
      mkState (messages st ++ [userMessage] ++ [assistantMessage])%list
              EmptyString true (modelType st) false in
    match (if offlineMode_stored env then zavaScenarios env messageToSend
           else None) with
    | Some scenarioData =>
        let dataToUse :=
          match modelType st with
          | Router => router scenarioData
          | Benchmark => benchmark scenarioData
          end in
        (st', replay_delivery assistantMessageId dataToUse)
    | None =>
        (st', live_delivery JSON_parse assistantMessageId (fetched env))
    end.

End Submission.

(** ** Running the setter calls *)

Definition run_action (a : Action) (st : State) : State :=
  match a with
  | SetMessages u =>
      mkState (apply_update u (messages st)) (inputValue st) (isLoading st)
              (modelType st) (showSuggestions st)
  | SetIsLoading b =>
      mkState (messages st) (inputValue st) b (modelType st)
              (showSuggestions st)
  | Sleep _ | AwaitFetch | AwaitRead => st
  end.

(** Runs a call to its end. *)
Fixpoint run (acts : list Action) (st : State) : State :=
  match acts with
  | [] => st
  | a :: rest => run rest (run_action a st)
  end.

(** The updates of the message list among the actions, in order. *)
Fixpoint notifications (acts : list Action) : list Update :=
  match acts with
  | [] => []
  | SetMessages u :: rest => u :: notifications rest
  | _ :: rest => notifications rest
  end.






(** ** The event loop: a suspended call and the handlers around it *)

Definition suspension (a : Action) : bool :=
  match a with
  | Sleep _ | AwaitFetch | AwaitRead => true
  | _ => false
  end.

(** Runs the actions up to the next suspension: the state reached, the
    updates made on the way, and the actions left, the first of which is
    the suspension the call now waits on. *)
Fixpoint run_to_suspension (acts : list Action) (st : State)
  : State * list Update * list Action :=
  match acts with
  | [] => (st, [], [])
  | a :: rest =>
      if suspension a then (st, [], acts)
      else
        let '(st', us, todo) := run_to_suspension rest (run_action a st) in
        match a with
        | SetMessages u => (st', u :: us, todo)
        | _ => (st', us, todo)
        end
  end.

(** A conversation and the call in flight for it, if any, suspended on the
    first of its [pending] actions. *)
Record Machine : Set := mkMachine {
  state : State;
  pending : list Action
}.

(** The suspension the call waits on completes: the call goes on to its
    next suspension. *)
Definition resume (m : Machine) : Machine * list Update :=
  match pending m with
  | a :: rest =>
      if suspension a then
        let '(st', us, todo) := run_to_suspension rest (state m) in
        (mkMachine st' todo, us)
      else (m, [])
  | [] => (m, [])
  end.

(** The user presses the reset button while the call is suspended. *)
Definition reset (date : N) (m : Machine) : Machine :=
  mkMachine (handleReset date (state m)) (pending m).

(** ** A reader for event payloads

    [JSON.parse] is a parameter of the development.  To evaluate the stream
    loop on concrete frames, this module reads the flat objects of the
    transport format: members separated by commas, keys between double
    quotes, no white space; a text without escapes or [null] for [content],
    [model] and [error], [true], [false] or [null] for [done], any of these
    for other keys.  On such a text it yields what [JSON.parse] and the four
    field reads yield; every other text is reported as unparsable. *)
Module EventJson.

Definition DQ : ascii := "034"%char.

Inductive Value : Set := VText (s : string) | VBool (b : bool) | VNull.

(** The characters up to the closing quote, and what follows it. *)
Fixpoint read_text (s : string) : option (string * string) :=
  match s with
  | EmptyString => None
  | String c r =>
      if Ascii.eqb c DQ then Some (EmptyString, r)
      else if Ascii.eqb c "\" then None
      else match read_text r with
           | Some (w, r') => Some (String c w, r')
           | None => None
           end
  end.

Definition read_value (s : string) : option (Value * string) :=
  match s with
  | EmptyString => None
  | String c r =>
      if Ascii.eqb c DQ then
        match read_text r with
        | Some (w, r') => Some (VText w, r')
        | None => None
        end
      else if startsWith "true" s then Some (VBool true, drop 4 s)
      else if startsWith "false" s then Some (VBool false, drop 5 s)
      else if startsWith "null" s then Some (VNull, drop 4 s)
      else None
  end.

Definition as_text (v : Value) : option (option string) :=
  match v with
  | VText s => Some (Some s)
  | VNull => Some None
  | VBool _ => None
  end.

Definition as_bool (v : Value) : option (option bool) :=
  match v with
  | VBool b => Some (Some b)
  | VNull => Some None
  | VText _ => None
  end.

(** Records a member; a later member of the same name replaces an earlier
    one, and members of other names are ignored. *)
Definition set_field (key : string) (v : Value) (p : Payload)
  : option Payload :=
  if String.eqb key "content" then
    option_map (fun c => mkPayload c (data_model p) (data_error p) (data_done p))
               (as_text v)
  else if String.eqb key "model" then
    option_map (fun m => mkPayload (data_content p) m (data_error p) (data_done p))
               (as_text v)
  else if String.eqb key "error" then
    option_map (fun e => mkPayload (data_content p) (data_model p) e (data_done p))
               (as_text v)
  else if String.eqb key "done" then
    option_map (fun d => mkPayload (data_content p) (data_model p) (data_error p) d)
               (as_bool v)
  else Some p.

(** The members from the opening quote of a key to the closing brace. *)
Fixpoint read_members (fuel : nat) (s : string) (p : Payload)
  : option Payload :=
  match fuel with
  | O => None
  | S fuel' =>
      match s with
      | String q r =>
          if Ascii.eqb q DQ then
            match read_text r with
            | Some (key, String ":" r1) =>
                match read_value r1 with
                | Some (v, r2) =>
                    match set_field key v p with
                    | Some p' =>
                        match r2 with
                        | String "}" EmptyString => Some p'
                        | String "," r3 => read_members fuel' r3 p'
                        | _ => None
                        end
                    | None => None
                    end
                | None => None
                end
            | _ => None
            end
          else None
      | EmptyString => None
      end
  end.

Definition parse (s : string) : option Payload :=
  match s with
  | String "{" (String "}" EmptyString) => Some (mkPayload None None None None)
  | String "{" r => read_members (String.length r) r (mkPayload None None None None)
  | _ => None
  end.

(** Writes frames with ['] where the transport has a double quote. *)
Fixpoint frame (s : string) : string :=
  match s with
  | EmptyString => EmptyString
  | String c r => String (if Ascii.eqb c "'" then DQ else c) (frame r)
  end.

(** A frame followed by a line feed. *)
Definition frame_line (s : string) : string :=
  frame s ++ String LF EmptyString.

End EventJson.


(** ** Vocabulary of the statements *)

(** A chunk as the scheduler writes it:
    [words.slice(i, i + wordsPerChunk).join(' ') + ' ']. *)
Definition chunk_of (group : list string) : string := join " " group ++ " ".

(** The ceiling of [w / c]. *)
Definition ceil_div (w c : nat) : nat := (w + c - 1) / c.

(** The message list after a sequence of updates. *)
Definition apply_updates (us : list Update) (prev : list Message)
  : list Message :=
  fold_left (fun ms u => apply_update u ms) us prev.

(** What a sequence of updates does to one entry of the list. *)
Definition deliver (us : list Update) (msg : Message) : Message :=
  fold_left (fun m u => if String.eqb (id m) (target u)
                        then rewrite_msg (change u) m else m) us msg.

(** The empty assistant message that [handleSendMessage] registers. *)
Definition placeholder (assistantMessageId : string) (date : N) : Message :=
  mkMessage assistantMessageId assistant EmptyString date None.

(** An update that changes the content only. *)
Definition content_only (aid : string) (u : Update) : Prop :=
  target u = aid /\ exists c, change u = WithContent c.

(** The update made for chunk [k], counted from 0, when the loop starts
    with [acc] already accumulated. *)
Definition chunk_update (aid acc : string) (chunks : list string) (k : nat)
  : Update :=
  mkUpdate aid
    (WithContent (trim (acc ++ String.concat EmptyString (firstn (S k) chunks)))).

(** Whether an update writes a model name on the message. *)
Definition names_model (u : Update) : bool :=
  match change u with
  | WithModelName _ => true
  | WithContent _ | WithContentNoModel _ => false
  end.

(** ** Sample inputs *)

Definition sample_script : ReplayData :=
  mkReplayData "a b c d" 100%float 300%float 2 "X".

Definition sample_scenarios (text : string) : option Scenario :=
  if String.eqb text "hello"
  then Some (mkScenario (Some sample_script) None)
  else None.

(** No delivery in flight, ["hello"] typed in. *)
Definition sample_state : State :=
  mkState (initialMessages 0) "hello" false Router true.

(** The clock reads 1000 throughout the call. *)
Definition sample_env (offline : bool) (res : FetchResult) : Env :=
  mkEnv offline sample_scenarios 1000 1000 1000 1000 res.

(** A call of [handleSendMessage] at its first suspension. *)
Definition submitted (JSON_parse : string -> option Payload) (env : Env)
    (customMessage : option string) (st : State) : Machine :=
  mkMachine (fst (handleSendMessage JSON_parse env customMessage st))
            (snd (handleSendMessage JSON_parse env customMessage st)).

(** The replay of [sample_script] once its start delay has passed: the
    first chunk is shown and the call waits for the delay before the
    second. *)
Definition sample_machine : Machine :=
  fst (resume (submitted EventJson.parse (sample_env true FetchThrows) None
                 sample_state)).

(** ** The other handlers and the view *)

(** [handleSuggestedMessage]: hides the suggestions, then submits the text
    of the suggestion. *)
Definition handleSuggestedMessage (JSON_parse : string -> option Payload)
    (env : Env) (messageText : string) (st : State) : State * list Action :=
  handleSendMessage JSON_parse env (Some messageText)
    (mkState (messages st) (inputValue st) (isLoading st) (modelType st) false).

(** The fields of [React.KeyboardEvent] that [handleKeyPress] reads. *)
Record KeyboardEvent : Set := mkKeyboardEvent {
  key : string;
  shiftKey : bool
}.

(** [handleKeyPress]: whether [e.preventDefault()] was called, and the
    submission made, if any. *)
Definition handleKeyPress (JSON_parse : string -> option Payload)
    (env : Env) (e : KeyboardEvent) (st : State)
  : bool * (State * list Action) :=
  if String.eqb (key e) "Enter" && negb (shiftKey e)
  then (true, handleSendMessage JSON_parse env None st)
  else (false, (st, [])).

(** [disabled={isLoading || !inputValue.trim()}] on the send button. *)
Definition send_disabled (st : State) : bool :=
  isLoading st || negb (truthy (trim (inputValue st))).

(** What the bubble of a message shows: the spinner, or the content with
    the line that names the model under it. *)
Inductive Bubble : Set :=
| Spinner
| Shown (text : string) (modelLine : option string).

(** The body of the bubble in [messages.map((message) => ...)]. *)
Definition bubble (message : Message) : Bubble :=
  if truthy (content message) then
    Shown (content message)
      match role message, modelName message with
      | assistant, Some m => if truthy m then Some m else None
      | _, _ => None
      end
  else Spinner.

(** ** Reading a live stream line by line *)

(** The payload of a line that the loop applies: the line has the prefix,
    its payload parses and carries no error. *)
Definition applied (JSON_parse : string -> option Payload) (line : string)
  : option Payload :=
  if startsWith "data: " line then
    match JSON_parse (drop 6 line) with
    | Some data =>
        match truthy_field (data_error data) with
        | Some _ => None
        | None => Some data
        end
    | None => None
    end
  else None.

(** The text a line adds to the reply. *)
Definition line_text (JSON_parse : string -> option Payload) (line : string)
  : string :=
  match applied JSON_parse line with
  | Some data =>
      match truthy_field (data_content data) with
      | Some c => c
      | None => EmptyString
      end
  | None => EmptyString
  end.

(** The model name a line announces. *)
Definition line_model (JSON_parse : string -> option Payload) (line : string)
  : option string :=
  match applied JSON_parse line with
  | Some data => truthy_field (data_model data)
  | None => None
  end.

(** Whether a line says that the stream is done. *)
Definition line_done (JSON_parse : string -> option Payload) (line : string)
  : bool :=
  match applied JSON_parse line with
  | Some data =>
      match data_done data with
      | Some true => true
      | _ => false
      end
  | None => false
  end.

(** The lines of the fragments up to the first fragment with a line that
    says done, that fragment included. *)
Fixpoint lines_read (JSON_parse : string -> option Payload) (body : Body)
  : list string :=
  match body with
  | EndOfStream | ReadFails => []
  | Fragment value rest =>
      (split LF value ++
       if existsb (line_done JSON_parse) (split LF value) then []
       else lines_read JSON_parse rest)%list
  end.

(** Whether the reads reach a done line or the end of the stream before a
    read fails. *)
Fixpoint completes (JSON_parse : string -> option Payload) (body : Body)
  : bool :=
  match body with
  | EndOfStream => true
  | ReadFails => false
  | Fragment value rest =>
      existsb (line_done JSON_parse) (split LF value)
      || completes JSON_parse rest
  end.

(** The texts of the lines laid end to end. *)
Definition text_of (JSON_parse : string -> option Payload)
    (lines : list string) : string :=
  String.concat EmptyString (map (line_text JSON_parse) lines).

(** The model name announced last among the lines, [init] if there is none. *)
Definition model_after (JSON_parse : string -> option Payload)
    (lines : list string) (init : option string) : option string :=
  fold_left (fun m l => match line_model JSON_parse l with
                        | Some x => Some x
                        | None => m
                        end) lines init.

(** No line that is read and applied announces a model name. *)
Definition no_model_read (JSON_parse : string -> option Payload)
    (body : Body) : Prop :=
  forall l : string,
    In l (lines_read JSON_parse body) -> line_model JSON_parse l = None.

(** ** Routing of a submission *)

(** The replay entry a submission is answered from: [None] on the live
    path, [Some None] when the scenario has no entry for the mode. *)
Definition route (env : Env) (customMessage : option string) (st : State)
  : option (option ReplayData) :=
  match (if offlineMode_stored env
         then zavaScenarios env (messageToSend customMessage st)
         else None) with
  | Some scenarioData =>
      Some match modelType st with
           | Router => router scenarioData
           | Benchmark => benchmark scenarioData
           end
  | None => None
  end.

(** The two messages an accepted submission registers. *)
Definition userMessage_of (env : Env) (customMessage : option string)
    (st : State) : Message :=
  mkMessage (toString (now_user env)) user (messageToSend customMessage st)
            (date_user env) None.

Definition assistantMessageId_of (env : Env) : string :=
  toString (now_assistant env + 1).

(** Actions that wait on the network. *)
Definition on_network (a : Action) : bool :=
  match a with
  | AwaitFetch | AwaitRead => true
  | _ => false
  end.

(** Actions that wait on a timer. *)
Definition on_timer (a : Action) : bool :=
  match a with
  | Sleep _ => true
  | _ => false
  end.

(** Actions that set the loading flag. *)
Definition sets_loading (a : Action) : bool :=
  match a with
  | SetIsLoading _ => true
  | _ => false
  end.

(** Actions that update the message list. *)
Definition update_action (a : Action) : Prop := exists u, a = SetMessages u.

(** ** More sample inputs *)

(** As [sample_state], with the benchmark mode selected. *)
Definition benchmark_state : State :=
  mkState (initialMessages 0) "hello" false Benchmark true.

(** Two frames, the second done, and then a read that would fail. *)
Definition sample_stream : Body :=
  Fragment (EventJson.frame_line "data: {'content':'Hi','model':'gpt'}")
    (Fragment (EventJson.frame_line "data: {'content':' there','done':true}")
       ReadFails).

(** One frame, and then a read that fails. *)
Definition broken_stream : Body :=
  Fragment (EventJson.frame_line "data: {'content':'Hi','model':'gpt'}")
    ReadFails.

(** ** The submissions the component makes *)

(** The texts of [suggestedMessages]. *)
Definition first_suggestion : string :=
  "What are the top 3 features of the Elite cleats?".

Definition second_suggestion : string :=
  "I'm thinking about cancelling my membership. Give me three good reasons why I should not cancel?".

Definition suggestedMessages : list string :=
  [first_suggestion; second_suggestion].

(** The arguments with which the component calls [handleSendMessage]: none
    (the Enter key and the send button), or the text of a suggestion. *)
Definition submitted_through_ui (customMessage : option string) : Prop :=
  match customMessage with
  | None => True
  | Some messageText => In messageText suggestedMessages
  end.

(** The cells of a component that has just been mounted. *)
Definition initial_state (date : N) : State :=
  mkState (initialMessages date) EmptyString false Router true.

(** A replay table with the sample script under the first suggestion. *)
Definition demo_scenarios (text : string) : option Scenario :=
  if String.eqb text first_suggestion
  then Some (mkScenario (Some sample_script) (Some sample_script))
  else None.

(** Offline, the clock reading [now] throughout the call. *)
Definition demo_env (now : N) : Env :=
  mkEnv true demo_scenarios now now now now FetchThrows.

(** The first suggestion pressed in a fresh component, offline, once the
    start delay of its replay has passed: the first chunk is shown and the
    call waits for the delay before the second. *)
Definition demo_machine : Machine :=
  fst (resume
         (mkMachine
            (fst (handleSuggestedMessage EventJson.parse (demo_env 1000)
                    first_suggestion (initial_state 0)))
            (snd (handleSuggestedMessage EventJson.parse (demo_env 1000)
                    first_suggestion (initial_state 0))))).

(** * Properties *)

(** ** Strings and lists *)

Lemma append_assoc (a b c : string) : (a ++ b) ++ c = a ++ (b ++ c).
Proof.
  induction a as [|x a IH]; simpl; [reflexivity | now rewrite IH].
Qed.

Lemma append_empty_r (a : string) : a ++ EmptyString = a.
Proof.
  induction a as [|x a IH]; simpl; [reflexivity | now rewrite IH].
Qed.

Lemma split_not_nil (sep : ascii) (s : string) : split sep s <> [].
Proof.
  destruct s as [|c s]; simpl; [discriminate|].
  destruct (Ascii.eqb c sep); [discriminate|].
  destruct (split sep s); discriminate.
Qed.

Lemma split_length_pos (sep : ascii) (s : string) :
  1 <= List.length (split sep s).
Proof.
  pose proof (split_not_nil sep s) as H.
  destruct (split sep s); [congruence | simpl; lia].
Qed.

(** Splitting on a character and joining on it gives the text back. *)
Lemma join_split (sep : ascii) (s : string) :
  join (String sep EmptyString) (split sep s) = s.
Proof.
  induction s as [|c s IH]; [reflexivity|].
  simpl split. destruct (Ascii.eqb_spec c sep) as [->|Hne].
  - pose proof (split_not_nil sep s) as Hnil.
    destruct (split sep s) as [|w ws]; [congruence|].
    change (join (String sep EmptyString) (EmptyString :: w :: ws))
      with (String sep (join (String sep EmptyString) (w :: ws))).
    now rewrite IH.
  - pose proof (split_not_nil sep s) as Hnil.
    destruct (split sep s) as [|w ws]; [congruence|].
    rewrite <- IH. destruct ws; reflexivity.
Qed.

Lemma join_app (sep : string) (l1 l2 : list string) :
  l1 <> [] -> l2 <> [] ->
  join sep (l1 ++ l2) = join sep l1 ++ sep ++ join sep l2.
Proof.
  intros H1 H2. induction l1 as [|a l1 IH]; [congruence|].
  destruct l1 as [|b l1].
  - destruct l2; [congruence | reflexivity].
  - change (join sep ((a :: b :: l1) ++ l2))
      with (a ++ sep ++ join sep ((b :: l1) ++ l2)).
    rewrite IH by discriminate.
    change (join sep (a :: b :: l1)) with (a ++ sep ++ join sep (b :: l1)).
    now rewrite !append_assoc.
Qed.

(** Joining the joined groups is joining all the words. *)
Lemma join_groups (sep : string) (groups : list (list string)) :
  (forall g, In g groups -> g <> []) ->
  join sep (map (join sep) groups) = join sep (List.concat groups).
Proof.
  induction groups as [|g gs IH]; intros Hne; [reflexivity|].
  assert (Hgs : forall g', In g' gs -> g' <> []) by (intros; apply Hne; now right).
  assert (Hg : g <> []) by (apply Hne; now left).
  specialize (IH Hgs). destruct gs as [|g' gs].
  - simpl. now rewrite app_nil_r.
  - change (join sep (map (join sep) (g :: g' :: gs)))
      with (join sep g ++ sep ++ join sep (map (join sep) (g' :: gs))).
    rewrite IH.
    change (List.concat (g :: g' :: gs)) with (g ++ List.concat (g' :: gs))%list.
    rewrite (join_app sep g (List.concat (g' :: gs))); [reflexivity | assumption |].
    assert (g' <> []) by (apply Hgs; now left).
    destruct g'; [congruence | discriminate].
Qed.

(** The chunks, each a joined group and a space, laid end to end. *)
Lemma concat_rendered (sep : string) (groups : list (list string)) :
  groups <> [] -> (forall g, In g groups -> g <> []) ->
  String.concat EmptyString (map (fun g => join sep g ++ sep) groups)
  = join sep (List.concat groups) ++ sep.
Proof.
  induction groups as [|g gs IH]; intros Hnil Hne; [congruence|].
  assert (Hgs : forall g', In g' gs -> g' <> []) by (intros; apply Hne; now right).
  assert (Hg : g <> []) by (apply Hne; now left).
  destruct gs as [|g' gs].
  - simpl. now rewrite app_nil_r.
  - change (String.concat EmptyString (map (fun g => join sep g ++ sep) (g :: g' :: gs)))
      with ((join sep g ++ sep) ++
            String.concat EmptyString (map (fun g => join sep g ++ sep) (g' :: gs))).
    rewrite IH by (assumption || discriminate).
    change (List.concat (g :: g' :: gs)) with (g ++ List.concat (g' :: gs))%list.
    rewrite (join_app sep g (List.concat (g' :: gs)));
      [now rewrite !append_assoc | assumption |].
    assert (g' <> []) by (apply Hgs; now left).
    destruct g'; [congruence | discriminate].
Qed.

Lemma trimEnd_space (s : string) : trimEnd (s ++ " ") = trimEnd s.
Proof.
  induction s as [|c s IH]; [reflexivity|].
  simpl. now rewrite IH.
Qed.

(** A space added at the end does not survive [trim]. *)
Lemma trim_space (s : string) : trim (s ++ " ") = trim s.
Proof.
  unfold trim. induction s as [|c s IH]; [reflexivity|].
  simpl. destruct (is_white_space c); [exact IH|].
  change (String c (s ++ " ")) with (String c s ++ " ").
  apply trimEnd_space.
Qed.

(** ** The chunking loop *)

Lemma ceil_div_step (w c : nat) :
  1 <= c -> 1 <= w -> ceil_div w c = S (ceil_div (w - c) c).
Proof.
  intros Hc Hw. unfold ceil_div.
  destruct (le_lt_dec c w) as [Hle|Hlt].
  - replace (w + c - 1) with ((w - c + c - 1) + 1 * c) by lia.
    rewrite Nat.div_add by lia. lia.
  - replace (w - c) with 0 by lia.
    rewrite (Nat.div_small (0 + c - 1) c) by lia.
    symmetry. apply (Nat.div_unique (w + c - 1) c 1 (w - 1)); lia.
Qed.

(** The ceiling is the least number of groups of [c] that hold [w] words. *)
Lemma ceil_div_bounds (w c : nat) :
  1 <= c -> w <= ceil_div w c * c < w + c.
Proof.
  intros Hc. unfold ceil_div.
  pose proof (Nat.div_mod_eq (w + c - 1) c) as E.
  pose proof (Nat.mod_upper_bound (w + c - 1) c) as B.
  nia.
Qed.

(** From index [i] on, with fuel for every test of its condition, the loop
    appends one chunk per group of the words not yet taken. *)
Lemma chunk_loop_groups (fuel : nat) :
  forall (words : list string) (c i : nat) (chunks : list string),
    1 <= c -> List.length words - i < fuel ->
    exists groups : list (list string),
      chunk_loop fuel words c i chunks = Some (chunks ++ map chunk_of groups)%list
      /\ List.concat groups = skipn i words
      /\ List.length groups = ceil_div (List.length words - i) c
      /\ (forall g, In g groups -> 1 <= List.length g <= c)
      /\ (forall k, S k < List.length groups ->
                    List.length (nth k groups []) = c).
Proof.
  induction fuel as [|fuel IH]; intros words c i chunks Hc Hfuel; [lia|].
  simpl chunk_loop. destruct (Nat.ltb_spec i (List.length words)) as [Hlt|Hge].
  - destruct (IH words c (i + c)
                (chunks ++ [(join " " (slice i (i + c) words) ++ " ")%string])%list
                Hc ltac:(lia))
      as (groups & Hrun & Hcat & Hlen & Hsize & Hfull).
    set (g := slice i (i + c) words) in *.
    assert (Eg : g = firstn c (skipn i words))
      by (unfold g, slice; f_equal; lia).
    assert (Lg : List.length g = Nat.min c (List.length words - i))
      by (rewrite Eg, length_firstn, length_skipn; reflexivity).
    exists (g :: groups). repeat split.
    + rewrite Hrun, <- app_assoc. reflexivity.
    + simpl List.concat. rewrite Hcat, Eg, Nat.add_comm, <- skipn_skipn.
      apply firstn_skipn.
    + simpl List.length. rewrite Hlen.
      rewrite (ceil_div_step (List.length words - i) c) by lia.
      do 2 f_equal. lia.
    + destruct H as [<-|Hin]; [lia | now apply Hsize].
    + destruct H as [<-|Hin]; [lia | now apply Hsize].
    + intros [|k] Hk; simpl in Hk |- *.
      * assert (Hpos : 1 <= ceil_div (List.length words - (i + c)) c) by lia.
        assert (Hmore : 1 <= List.length words - (i + c)).
        { destruct (List.length words - (i + c)) eqn:E; [|lia].
          unfold ceil_div in Hpos. rewrite Nat.div_small in Hpos; lia. }
        lia.
      * apply Hfull. lia.
  - exists []. repeat split.
    + now rewrite app_nil_r.
    + symmetry. apply skipn_all2. lia.
    + replace (List.length words - i) with 0 by lia.
      unfold ceil_div. rewrite Nat.div_small; [reflexivity | lia].
    + destruct H.
    + destruct H.
    + simpl. lia.
Qed.

(** With a chunk size of at least 1 the loop of [split_chunks] exits. *)
Lemma split_chunks_groups (words : list string) (c : nat) :
  1 <= c ->
  exists groups : list (list string),
    split_chunks words c = Some (map chunk_of groups)
    /\ List.concat groups = words
    /\ List.length groups = ceil_div (List.length words) c
    /\ (forall g, In g groups -> 1 <= List.length g <= c)
    /\ (forall k, S k < List.length groups ->
                  List.length (nth k groups []) = c).
Proof.
  intros Hc. unfold split_chunks.
  destruct (chunk_loop_groups (S (List.length words)) words c 0 [] Hc ltac:(lia))
    as (groups & Hrun & Hcat & Hlen & Hsize & Hfull).
  exists groups. rewrite Nat.sub_0_r in Hlen. simpl in Hrun, Hcat.
  repeat split; try assumption; now apply Hsize.
Qed.

(** ** Sequences of actions *)

Lemma notifications_app (a b : list Action) :
  notifications (a ++ b) = (notifications a ++ notifications b)%list.
Proof.
  induction a as [|x a IH]; [reflexivity|].
  destruct x; simpl; now rewrite ?IH.
Qed.


Lemma run_app (a b : list Action) (st : State) :
  run (a ++ b) st = run b (run a st).
Proof.
  revert st. induction a as [|x a IH]; intros st; [reflexivity|].
  simpl. apply IH.
Qed.

(** Running a call that ends changes the list by its updates, in order. *)
Lemma run_messages (acts : list Action) (st : State) :
  messages (run acts st) = apply_updates (notifications acts) (messages st).
Proof.
  revert st. induction acts as [|a acts IH]; intros st; [reflexivity|].
  destruct a; simpl; try apply IH; try reflexivity.
  now rewrite IH.
Qed.

(** ** Updates, entry by entry *)

Lemma apply_updates_map (us : list Update) (prev : list Message) :
  apply_updates us prev = map (deliver us) prev.
Proof.
  revert prev. induction us as [|u us IH]; intros prev.
  - simpl. now rewrite map_id.
  - unfold apply_updates, deliver in *. simpl. rewrite IH.
    unfold apply_update. now rewrite map_map.
Qed.

Lemma rewrite_msg_id (r : Rewrite) (msg : Message) :
  id (rewrite_msg r msg) = id msg.
Proof. now destruct r. Qed.

Lemma deliver_id (us : list Update) (msg : Message) :
  id (deliver us msg) = id msg.
Proof.
  revert msg. induction us as [|u us IH]; intros msg; [reflexivity|].
  unfold deliver in *. simpl. rewrite IH.
  destruct (String.eqb (id msg) (target u)); [apply rewrite_msg_id | reflexivity].
Qed.

Lemma deliver_app (us vs : list Update) (msg : Message) :
  deliver (us ++ vs) msg = deliver vs (deliver us msg).
Proof. unfold deliver. apply fold_left_app. Qed.

(** Updates aimed at another id leave an entry as it is. *)
Lemma deliver_other (us : list Update) (msg : Message) :
  (forall u, In u us -> target u <> id msg) -> deliver us msg = msg.
Proof.
  revert msg. induction us as [|u us IH]; intros msg H; [reflexivity|].
  unfold deliver in *. simpl.
  destruct (String.eqb_spec (id msg) (target u)) as [E|_].
  - exfalso. apply (H u); [now left | now symmetry].
  - apply IH. intros v Hv. apply H. now right.
Qed.

Lemma deliver_content_only (aid : string) (us : list Update) (msg : Message) :
  Forall (content_only aid) us -> modelName (deliver us msg) = modelName msg.
Proof.
  revert msg. induction us as [|u us IH]; intros msg H; [reflexivity|].
  inversion H as [|? ? [_ [c Hc]] Hus]; subst.
  unfold deliver in *. simpl. rewrite IH by assumption.
  destruct (String.eqb (id msg) (target u)); [|reflexivity].
  now rewrite Hc.
Qed.

(** ** The emission loop *)

Lemma concat_cons (c : string) (l : list string) :
  String.concat EmptyString (c :: l) = c ++ String.concat EmptyString l.
Proof.
  destruct l; simpl; [now rewrite append_empty_r | reflexivity].
Qed.

Lemma stream_loop_notifications (chunks : list string) :
  forall (delay : float) (aid acc : string),
    notifications (stream_loop chunks delay aid acc)
    = map (chunk_update aid acc chunks) (seq 0 (List.length chunks)).
Proof.
  induction chunks as [|c rest IH]; intros delay aid acc; [reflexivity|].
  assert (Hd : chunk_update aid acc (c :: rest) 0
               = mkUpdate aid (WithContent (trim (acc ++ c)))).
  { unfold chunk_update. simpl. rewrite ?append_empty_r. reflexivity. }
  assert (Htl : notifications (stream_loop rest delay aid (acc ++ c))
                = map (chunk_update aid acc (c :: rest))
                      (seq 1 (List.length rest))).
  { rewrite <- seq_shift, map_map, IH. apply map_ext. intros k.
    unfold chunk_update.
    change (firstn (S (S k)) (c :: rest)) with (c :: firstn (S k) rest).
    now rewrite concat_cons, append_assoc. }
  cbn [stream_loop List.length seq map notifications].
  rewrite Hd, <- Htl. f_equal. destruct rest; reflexivity.
Qed.



Lemma chunk_updates_content_only (aid acc : string) (chunks : list string)
    (ks : list nat) :
  Forall (content_only aid) (map (chunk_update aid acc chunks) ks).
Proof.
  induction ks as [|k ks IH]; constructor; [|exact IH].
  split; [reflexivity | eexists; reflexivity].
Qed.

(** An entry after a content update and then a model update aimed at it. *)
Lemma deliver_final (us : list Update) (aid c m : string) (msg : Message) :
  id msg = aid ->
  deliver (us ++ [mkUpdate aid (WithContent c); mkUpdate aid (WithModelName m)])
          msg
  = mkMessage aid (role (deliver us msg)) c (timestamp (deliver us msg)) (Some m).
Proof.
  intros Hid. rewrite deliver_app.
  pose proof (deliver_id us msg) as Hid'. rewrite Hid in Hid'.
  destruct (deliver us msg) as [i r c0 t m0]. simpl in Hid'. subst i.
  unfold deliver. simpl. rewrite String.eqb_refl. simpl.
  now rewrite String.eqb_refl.
Qed.

(** ** The replay scheduler as a whole *)

(** With a chunk size of at least 1 the scheduler returns: it sleeps the
    start delay, runs the emission loop over one chunk per group of words,
    and names the model. *)
Lemma simulate_shape (text : string) (c : nat) (startDelayMs totalDurationMs : float)
    (aid mname : string) :
  1 <= c ->
  exists groups : list (list string),
    simulateStreamingResponse text startDelayMs totalDurationMs c aid mname
    = Some (Sleep startDelayMs
            :: stream_loop (map chunk_of groups)
                 (delayPerChunk startDelayMs totalDurationMs (List.length groups))
                 aid EmptyString
            ++ [SetMessages (mkUpdate aid (WithModelName mname))])%list
    /\ List.concat groups = split " " text
    /\ List.length groups = ceil_div (List.length (split " " text)) c
    /\ (forall g, In g groups -> 1 <= List.length g <= c)
    /\ (forall k, S k < List.length groups ->
                  List.length (nth k groups []) = c).
Proof.
  intros Hc.
  destruct (split_chunks_groups (split " " text) c Hc)
    as (groups & Hrun & Hcat & Hlen & Hsize & Hfull).
  exists groups. unfold simulateStreamingResponse.
  rewrite Hrun, length_map. repeat split; try assumption; now apply Hsize.
Qed.

Lemma groups_not_nil (text : string) (c : nat) (groups : list (list string)) :
  1 <= c ->
  List.length groups = ceil_div (List.length (split " " text)) c ->
  1 <= List.length groups.
Proof.
  intros Hc Hlen. pose proof (split_length_pos " " text) as Hw.
  pose proof (ceil_div_bounds (List.length (split " " text)) c Hc) as Hb.
  rewrite Hlen. destruct (ceil_div (List.length (split " " text)) c); lia.
Qed.

(** C1 (as amended).  For every reply text and every chunk size of at
    least 1 the scheduler returns; the words of the text (its pieces between
    single spaces, [W] of them) are cut into [ceil (W / C)] consecutive
    groups, all of [C] words except possibly the last, which has between 1
    and [C]; the groups joined by single spaces are the text, each word once
    and in order; the chunks emitted are the groups, each followed by one
    space, so that laid end to end they are the text and a final space;
    update [k] shows the first [k + 1] chunks, trimmed; and the content left
    on the message is the text trimmed of the white space at its two ends. *)
Theorem replay_partitions_text (text : string) (c : nat)
    (startDelayMs totalDurationMs : float) (aid mname : string) :
  1 <= c ->
  exists (groups : list (list string)) (acts : list Action),
    simulateStreamingResponse text startDelayMs totalDurationMs c aid mname
    = Some acts
    /\ List.concat groups = split " " text
    /\ List.length groups = ceil_div (List.length (split " " text)) c
    /\ List.length (split " " text) <= List.length groups * c
       < List.length (split " " text) + c
    /\ (forall g, In g groups -> 1 <= List.length g <= c)
    /\ (forall k, S k < List.length groups ->
                  List.length (nth k groups []) = c)
    /\ join " " (map (join " ") groups) = text
    /\ String.concat EmptyString (map chunk_of groups) = text ++ " "
    /\ notifications acts
       = (map (chunk_update aid EmptyString (map chunk_of groups))
              (seq 0 (List.length groups))
          ++ [mkUpdate aid (WithModelName mname)])%list
    /\ forall msg, id msg = aid ->
         content (deliver (notifications acts) msg) = trim text.
Proof.
  intros Hc.
  destruct (simulate_shape text c startDelayMs totalDurationMs aid mname Hc)
    as (groups & Hrun & Hcat & Hlen & Hsize & Hfull).
  pose proof (groups_not_nil text c groups Hc Hlen) as Hpos.
  assert (Hne : forall g, In g groups -> g <> []).
  { intros g Hg E. apply Hsize in Hg. subst g. simpl in Hg. lia. }
  assert (Hjoin : join " " (List.concat groups) = text)
    by (rewrite Hcat; apply join_split).
  assert (Hflat : String.concat EmptyString (map chunk_of groups) = text ++ " ").
  { unfold chunk_of. rewrite concat_rendered; [now rewrite Hjoin | | assumption].
    intros ->. simpl in Hpos. lia. }
  eexists groups, _. split; [exact Hrun|].
  assert (Hnote :
    notifications
      (Sleep startDelayMs
       :: stream_loop (map chunk_of groups)
            (delayPerChunk startDelayMs totalDurationMs (List.length groups))
            aid EmptyString
       ++ [SetMessages (mkUpdate aid (WithModelName mname))])
    = (map (chunk_update aid EmptyString (map chunk_of groups))
           (seq 0 (List.length groups))
       ++ [mkUpdate aid (WithModelName mname)])%list).
  { cbn [notifications].
    rewrite notifications_app.
    now rewrite stream_loop_notifications, length_map. }
  repeat split; try assumption.
  - rewrite Hlen. apply ceil_div_bounds, Hc.
  - rewrite Hlen. apply ceil_div_bounds, Hc.
  - now apply Hsize.
  - now apply Hsize.
  - rewrite join_groups; assumption.
  - intros msg Hid. rewrite Hnote.
    destruct (List.length groups) as [|n] eqn:En; [lia|].
    rewrite seq_S, map_app, <- app_assoc. simpl app.
    unfold chunk_update at 2. rewrite deliver_final by assumption.
    cbn [content].
    rewrite <- En, <- (length_map chunk_of groups), firstn_all, Hflat.
    apply trim_space.
Qed.

Lemma replay_partitions_text_witness :
  exists (groups : list (list string)) (acts : list Action),
    simulateStreamingResponse "a b c d" 100%float 300%float 2 "7" "X" = Some acts
    /\ List.concat groups = split " " "a b c d"
    /\ List.length groups = ceil_div (List.length (split " " "a b c d")) 2
    /\ List.length (split " " "a b c d") <= List.length groups * 2
       < List.length (split " " "a b c d") + 2
    /\ (forall g, In g groups -> 1 <= List.length g <= 2)
    /\ (forall k, S k < List.length groups ->
                  List.length (nth k groups []) = 2)
    /\ join " " (map (join " ") groups) = "a b c d"
    /\ String.concat EmptyString (map chunk_of groups) = "a b c d" ++ " "
    /\ notifications acts
       = (map (chunk_update "7" EmptyString (map chunk_of groups))
              (seq 0 (List.length groups))
          ++ [mkUpdate "7" (WithModelName "X")])%list
    /\ forall msg, id msg = "7" ->
         content (deliver (notifications acts) msg) = trim "a b c d".
Proof.
  apply (replay_partitions_text "a b c d" 2 100%float 300%float "7" "X"). lia.
Defined.

(** C1, counterexample.  The reply [" a"] with one word per chunk: the
    content left on the message is ["a"], not the text. *)
Lemma replay_final_content_trimmed :
  exists acts : list Action,
    simulateStreamingResponse " a" 100%float 300%float 1 "7" "X" = Some acts
    /\ content (deliver (notifications acts) (placeholder "7" 0)) = "a"
    /\ content (deliver (notifications acts) (placeholder "7" 0)) <> " a".
Proof.
  eexists. split; [reflexivity|]. split; [reflexivity | discriminate].
Qed.

(** ** Delays *)








(** ** The empty reply *)

Lemma split_chunks_empty_word (c : nat) :
  1 <= c -> split_chunks [EmptyString] c = Some [" "].
Proof.
  intros Hc. destruct c as [|c]; [lia|].
  unfold split_chunks. cbn [chunk_loop List.length Nat.ltb Nat.leb Nat.add].
  unfold slice. rewrite Nat.sub_0_r. cbn [skipn firstn].
  now rewrite firstn_nil.
Qed.

(** C8 (as amended).  For a replay script whose text is empty, and a chunk
    size of at least 1, the run sleeps the start delay, then makes one
    update whose content is empty (the single chunk is one space, trimmed
    away), sleeps no further delay, and names the model: the message is left
    with empty content and the model name of the script. *)
Theorem replay_empty_text (c : nat) (startDelayMs totalDurationMs : float)
    (aid mname : string) (date : N) :
  1 <= c ->
  simulateStreamingResponse EmptyString startDelayMs totalDurationMs c aid mname
  = Some [Sleep startDelayMs;
          SetMessages (mkUpdate aid (WithContent EmptyString));
          SetMessages (mkUpdate aid (WithModelName mname))]
  /\ deliver [mkUpdate aid (WithContent EmptyString);
              mkUpdate aid (WithModelName mname)] (placeholder aid date)
     = mkMessage aid assistant EmptyString date (Some mname).
Proof.
  intros Hc. split.
  - unfold simulateStreamingResponse. simpl split.
    rewrite split_chunks_empty_word by assumption. reflexivity.
  - unfold deliver, placeholder. simpl. rewrite String.eqb_refl. simpl.
    now rewrite String.eqb_refl.
Qed.

Lemma replay_empty_text_witness :
  simulateStreamingResponse EmptyString 100%float 300%float 2 "7" "X"
  = Some [Sleep 100%float;
          SetMessages (mkUpdate "7" (WithContent EmptyString));
          SetMessages (mkUpdate "7" (WithModelName "X"))]
  /\ deliver [mkUpdate "7" (WithContent EmptyString);
              mkUpdate "7" (WithModelName "X")] (placeholder "7" 5)
     = mkMessage "7" assistant EmptyString 5 (Some "X").
Proof.
  apply (replay_empty_text 2 100%float 300%float "7" "X" 5). lia.
Defined.

(** C8, counterexample.  The empty script with model ["X"]: the run ends
    with the model named on the message. *)
Lemma replay_empty_text_names_model :
  exists acts : list Action,
    simulateStreamingResponse EmptyString 100%float 300%float 2 "7" "X" = Some acts
    /\ modelName (deliver (notifications acts) (placeholder "7" 5)) = Some "X"
    /\ modelName (deliver (notifications acts) (placeholder "7" 5)) <> None.
Proof.
  eexists. split; [reflexivity|]. split; [reflexivity | discriminate].
Qed.

(** ** Updates rewrite one id *)

Lemma apply_update_length (u : Update) (prev : list Message) :
  List.length (apply_update u prev) = List.length prev.
Proof. apply length_map. Qed.

Lemma apply_update_ids (u : Update) (prev : list Message) :
  map id (apply_update u prev) = map id prev.
Proof.
  unfold apply_update. rewrite map_map. apply map_ext. intros msg.
  destruct (String.eqb (id msg) (target u)); [apply rewrite_msg_id | reflexivity].
Qed.

Lemma apply_update_other (u : Update) (prev : list Message) (k : nat)
    (msg : Message) :
  nth_error prev k = Some msg -> id msg <> target u ->
  nth_error (apply_update u prev) k = Some msg.
Proof.
  intros Hk Hid. unfold apply_update. rewrite nth_error_map, Hk. simpl.
  destruct (String.eqb_spec (id msg) (target u)); [contradiction | reflexivity].
Qed.

Lemma stream_loop_targets (chunks : list string) :
  forall (delay : float) (aid acc : string) (u : Update),
    In (SetMessages u) (stream_loop chunks delay aid acc) -> target u = aid.
Proof.
  induction chunks as [|c rest IH]; intros delay aid acc u H; [destruct H|].
  simpl in H. destruct H as [H|H]; [now inversion H|].
  destruct rest as [|c' rest]; [destruct H|].
  destruct H as [H|H]; [discriminate|]. now apply IH in H.
Qed.

Section LiveFacts.

Variable JSON_parse : string -> option Payload.

Lemma process_line_targets (aid : string) (vars : string * bool)
    (line : string) (u : Update) :
  In (SetMessages u) (snd (process_line JSON_parse aid vars line)) ->
  target u = aid.
Proof.
  unfold process_line. destruct vars as [acc isDone].
  destruct (startsWith "data: " line); [|intros []].
  destruct (JSON_parse (drop 6 line)) as [data|]; [|intros []].
  destruct (truthy_field (data_error data)); [intros []|].
  destruct (truthy_field (data_content data));
    destruct (truthy_field (data_model data)); simpl;
    intuition (try discriminate);
    match goal with H : SetMessages _ = SetMessages _ |- _ =>
      now inversion H end.
Qed.

Lemma process_lines_targets (aid : string) (lines : list string) :
  forall (vars : string * bool) (u : Update),
    In (SetMessages u) (snd (process_lines JSON_parse aid vars lines)) ->
    target u = aid.
Proof.
  induction lines as [|line rest IH]; intros vars u H; [destruct H|].
  simpl in H.
  destruct (process_line JSON_parse aid vars line) as [vars1 acts1] eqn:E1.
  destruct (process_lines JSON_parse aid vars1 rest) as [vars2 acts2] eqn:E2.
  simpl in H. apply in_app_or in H. destruct H as [H|H].
  - apply (process_line_targets aid vars line). now rewrite E1.
  - apply (IH vars1). now rewrite E2.
Qed.

Lemma after_loop_targets (aid acc : string) (u : Update) :
  In (SetMessages u) (after_loop aid acc) -> target u = aid.
Proof.
  unfold after_loop. destruct (truthy acc); [intros []|].
  intros [H|[]]. now inversion H.
Qed.

Lemma catch_live_targets (aid : string) (u : Update) :
  In (SetMessages u) (catch_live aid) -> target u = aid.
Proof. intros [H|[]]. now inversion H. Qed.

Lemma read_loop_targets (aid : string) (body : Body) :
  forall (acc : string) (u : Update),
    In (SetMessages u) (read_loop JSON_parse aid body acc) -> target u = aid.
Proof.
  induction body as [| |value rest IH]; intros acc u H; simpl in H.
  - destruct H as [H|H]; [discriminate | now apply after_loop_targets in H].
  - destruct H as [H|H]; [discriminate | now apply catch_live_targets in H].
  - destruct H as [H|H]; [discriminate|].
    destruct (process_lines JSON_parse aid (acc, false) (split LF value))
      as [[acc' isDone] acts] eqn:E.
    apply in_app_or in H. destruct H as [H|H].
    + apply (process_lines_targets aid (split LF value) (acc, false)).
      now rewrite E.
    + destruct isDone; [now apply after_loop_targets in H | now apply IH in H].
Qed.

Lemma live_delivery_targets (aid : string) (res : FetchResult) (u : Update) :
  In (SetMessages u) (live_delivery JSON_parse aid res) -> target u = aid.
Proof.
  unfold live_delivery. intros [H|H]; [discriminate|].
  apply in_app_or in H. destruct H as [H|[H|[]]]; [|discriminate].
  destruct res as [|[|] [body|]];
    try (now apply catch_live_targets in H).
  now apply read_loop_targets in H.
Qed.

End LiveFacts.

Lemma replay_delivery_targets (aid : string) (dataToUse : option ReplayData)
    (u : Update) :
  In (SetMessages u) (replay_delivery aid dataToUse) -> target u = aid.
Proof.
  unfold replay_delivery. destruct dataToUse as [d|].
  - unfold simulateStreamingResponse.
    destruct (split_chunks (split " " (response d)) (wordsPerChunk d)) as [chunks|].
    + intros H. apply in_app_or in H. destruct H as [H|[H|[]]]; [|discriminate].
      destruct H as [H|H]; [discriminate|].
      apply in_app_or in H. destruct H as [H|[H|[]]].
      * now apply stream_loop_targets in H.
      * now inversion H.
    + intros [H|[H|[H|[]]]]; try discriminate. now inversion H.
  - intros [H|[H|[]]]; [now inversion H | discriminate].
Qed.

(** C10.  Every update of the message list that a delivery makes compares
    against the id of the placeholder; applied to any list, it keeps the
    length, keeps the id at every position, and leaves as it is every entry
    whose id is not the placeholder's: role, content, timestamp and model
    name included, in the same position. *)
Theorem delivery_updates_frame (JSON_parse : string -> option Payload)
    (env : Env) (customMessage : option string) (st : State) (u : Update)
    (prev : list Message) :
  In (SetMessages u)
     (snd (handleSendMessage JSON_parse env customMessage st)) ->
  target u = toString (now_assistant env + 1)
  /\ List.length (apply_update u prev) = List.length prev
  /\ map id (apply_update u prev) = map id prev
  /\ forall (k : nat) (msg : Message),
       nth_error prev k = Some msg ->
       id msg <> toString (now_assistant env + 1) ->
       nth_error (apply_update u prev) k = Some msg.
Proof.
  intros Hin.
  assert (Ht : target u = toString (now_assistant env + 1)).
  { unfold handleSendMessage in Hin.
    destruct (negb (truthy (messageToSend customMessage st)) || isLoading st);
      [destruct Hin|].
    destruct (if offlineMode_stored env
              then zavaScenarios env (messageToSend customMessage st)
              else None) as [scenarioData|]; simpl in Hin.
    - now apply replay_delivery_targets in Hin.
    - now apply live_delivery_targets in Hin. }
  split; [exact Ht|]. split; [apply apply_update_length|].
  split; [apply apply_update_ids|].
  intros k msg Hk Hid. apply apply_update_other; [assumption|].
  now rewrite Ht.
Qed.

Lemma delivery_updates_frame_witness :
  target (mkUpdate "1001" (WithContentNoModel apology_live))
  = toString (now_assistant (sample_env false FetchThrows) + 1)
  /\ List.length (apply_update (mkUpdate "1001" (WithContentNoModel apology_live))
                    (initialMessages 0 ++ [placeholder "1001" 1000]))
     = List.length (initialMessages 0 ++ [placeholder "1001" 1000])
  /\ map id (apply_update (mkUpdate "1001" (WithContentNoModel apology_live))
               (initialMessages 0 ++ [placeholder "1001" 1000]))
     = map id (initialMessages 0 ++ [placeholder "1001" 1000])
  /\ forall (k : nat) (msg : Message),
       nth_error (initialMessages 0 ++ [placeholder "1001" 1000]) k = Some msg ->
       id msg <> toString (now_assistant (sample_env false FetchThrows) + 1) ->
       nth_error (apply_update (mkUpdate "1001" (WithContentNoModel apology_live))
                    (initialMessages 0 ++ [placeholder "1001" 1000])) k
       = Some msg.
Proof.
  apply (delivery_updates_frame EventJson.parse (sample_env false FetchThrows)
           None sample_state).
  simpl. right. left. reflexivity.
Defined.

(** ** Failures of the live request *)

(** C6.  When a submission is accepted and takes the live path, and the
    response has a status that is not a success or a body that cannot be
    read, the call makes exactly one update of the message list: the fixed
    apology as content and no model name, on the placeholder.  No update
    with streamed content is made. *)
Theorem live_failure_single_apology (JSON_parse : string -> option Payload)
    (env : Env) (customMessage : option string) (st : State)
    (ok : bool) (body : option Body) :
  isLoading st = false ->
  truthy (messageToSend customMessage st) = true ->
  (if offlineMode_stored env
   then zavaScenarios env (messageToSend customMessage st) else None) = None ->
  fetched env = FetchResponse ok body ->
  ok = false \/ body = None ->
  let aid := toString (now_assistant env + 1) in
  snd (handleSendMessage JSON_parse env customMessage st)
  = [AwaitFetch;
     SetMessages (mkUpdate aid (WithContentNoModel apology_live));
     SetIsLoading false]
  /\ notifications (snd (handleSendMessage JSON_parse env customMessage st))
     = [mkUpdate aid (WithContentNoModel apology_live)]
  /\ forall date : N,
       deliver (notifications
                  (snd (handleSendMessage JSON_parse env customMessage st)))
               (placeholder aid date)
       = mkMessage aid assistant apology_live date None.
Proof.
  intros Hload Hmsg Hroute Hfetch Hfail aid.
  assert (E : snd (handleSendMessage JSON_parse env customMessage st)
              = [AwaitFetch;
                 SetMessages (mkUpdate aid (WithContentNoModel apology_live));
                 SetIsLoading false]).
  { unfold handleSendMessage. rewrite Hmsg, Hload, Hroute, Hfetch. simpl.
    unfold live_delivery.
    destruct Hfail as [-> | ->]; [reflexivity | destruct ok; reflexivity]. }
  rewrite E. split; [reflexivity|]. split; [reflexivity|].
  intros date. unfold deliver, placeholder. simpl.
  now rewrite String.eqb_refl.
Qed.

Lemma live_failure_single_apology_witness :
  snd (handleSendMessage EventJson.parse
         (sample_env false (FetchResponse false None)) None sample_state)
  = [AwaitFetch;
     SetMessages (mkUpdate "1001" (WithContentNoModel apology_live));
     SetIsLoading false]
  /\ notifications
       (snd (handleSendMessage EventJson.parse
               (sample_env false (FetchResponse false None)) None sample_state))
     = [mkUpdate "1001" (WithContentNoModel apology_live)]
  /\ forall date : N,
       deliver (notifications
                  (snd (handleSendMessage EventJson.parse
                          (sample_env false (FetchResponse false None)) None
                          sample_state)))
               (placeholder "1001" date)
       = mkMessage "1001" assistant apology_live date None.
Proof.
  apply (live_failure_single_apology EventJson.parse
           (sample_env false (FetchResponse false None)) None sample_state
           false None);
    try reflexivity.
  left. reflexivity.
Defined.

(** ** Rejected submissions *)

Lemma trimEnd_cons (c : ascii) (s : string) :
  trimEnd (String c s)
  = match trimEnd s with
    | EmptyString =>
        if is_white_space c then EmptyString else String c EmptyString
    | String _ _ as t => String c t
    end.
Proof. reflexivity. Qed.

Lemma trimEnd_idempotent (s : string) : trimEnd (trimEnd s) = trimEnd s.
Proof.
  induction s as [|c s IH]; [reflexivity|].
  rewrite (trimEnd_cons c s). destruct (trimEnd s) as [|a t] eqn:E.
  - destruct (is_white_space c) eqn:W; [reflexivity|].
    rewrite trimEnd_cons. simpl. now rewrite W.
  - rewrite (trimEnd_cons c (String a t)), IH. reflexivity.
Qed.

(** [trimEnd] keeps a first character that is not white space. *)
Lemma trimEnd_head (c : ascii) (s : string) :
  is_white_space c = false -> exists t, trimEnd (String c s) = String c t.
Proof.
  intros W. rewrite trimEnd_cons. destruct (trimEnd s); [|eexists; reflexivity].
  rewrite W. eexists; reflexivity.
Qed.

Lemma trimStart_head (s : string) :
  trimStart s = EmptyString
  \/ exists c t, trimStart s = String c t /\ is_white_space c = false.
Proof.
  induction s as [|c s IH]; [now left|].
  cbn [trimStart]. destruct (is_white_space c) eqn:W; [exact IH|].
  right. now exists c, s.
Qed.

(** Trimming a trimmed text changes nothing. *)
Lemma trim_idempotent (s : string) : trim (trim s) = trim s.
Proof.
  unfold trim. destruct (trimStart_head s) as [E|(c & t & E & W)]; rewrite E.
  - reflexivity.
  - destruct (trimEnd_head c t W) as [t' E']. rewrite E'.
    cbn [trimStart]. rewrite W, <- E'. apply trimEnd_idempotent.
Qed.

(** C5 (as amended).  For every submission the component makes (the typed
    input, or the text of one of the two suggestions), if the loading flag
    is set or the submitted message is empty after trimming, the call
    returns at once: the state is unchanged, the message list included, and
    the call does nothing afterwards, neither a request nor a timer.  The
    flag is what the handler tests: an accepted submission sets it, the end
    of any call and a reset clear it, so a delivery that a reset left
    running does not hold back the next submission. *)
Theorem submission_rejected (JSON_parse : string -> option Payload)
    (env : Env) (customMessage : option string) (st : State) :
  submitted_through_ui customMessage ->
  isLoading st = true \/ trim (messageToSend customMessage st) = EmptyString ->
  handleSendMessage JSON_parse env customMessage st = (st, []).
Proof.
  intros Hui [H|H]; unfold handleSendMessage.
  - rewrite H, orb_true_r. reflexivity.
  - assert (E : messageToSend customMessage st = EmptyString).
    { destruct customMessage as [messageText|]; simpl in *.
      - destruct Hui as [<-|[<-|[]]]; vm_compute in H; discriminate.
      - now rewrite trim_idempotent in H. }
    rewrite E. reflexivity.
Qed.

Lemma submission_rejected_witness :
  handleSendMessage EventJson.parse (sample_env false FetchThrows) None
    (mkState (initialMessages 0) "  " false Router true)
  = (mkState (initialMessages 0) "  " false Router true, []).
Proof.
  apply (submission_rejected EventJson.parse (sample_env false FetchThrows) None
           (mkState (initialMessages 0) "  " false Router true)).
  - exact I.
  - right. reflexivity.
Defined.

(** C5, counterexample.  The first suggestion is pressed offline and its
    replay is reset while it waits between its two chunks: the call is still
    suspended with updates to make, yet the second suggestion, pressed then,
    is accepted: the list grows by the user message and the placeholder and
    a request is made. *)
Lemma submission_accepted_during_delivery :
  pending (reset 2000 demo_machine)
  = [Sleep 100%float;
     SetMessages (mkUpdate "1001" (WithContent "a b c d"));
     SetMessages (mkUpdate "1001" (WithModelName "X"));
     SetIsLoading false]
  /\ List.length
       (messages
          (fst (handleSuggestedMessage EventJson.parse (demo_env 3000)
                  second_suggestion (state (reset 2000 demo_machine)))))
     = List.length (messages (state (reset 2000 demo_machine))) + 2
  /\ snd (handleSuggestedMessage EventJson.parse (demo_env 3000)
            second_suggestion (state (reset 2000 demo_machine)))
     = [AwaitFetch;
        SetMessages (mkUpdate "3001" (WithContentNoModel apology_live));
        SetIsLoading false].
Proof. repeat split. Qed.

(** ** Lines of the live stream *)

Section LineFacts.

Variable JSON_parse : string -> option Payload.



(** A line whose payload carries an error changes nothing either: the
    exception thrown for it is caught with the parse errors. *)
Lemma process_line_error (aid : string) (vars : string * bool)
    (line : string) (data : Payload) (e : string) :
  JSON_parse (drop 6 line) = Some data ->
  truthy_field (data_error data) = Some e ->
  process_line JSON_parse aid vars line = (vars, []).
Proof.
  intros Hp He. unfold process_line. destruct vars. rewrite Hp, He.
  now destruct (startsWith "data: " line).
Qed.


End LineFacts.

(** C4.  The stream [data: {'error':'boom'}], then [data: {'content':'Hi'}],
    then its end (frames written with ['] for the double quote): the line with the error makes no update and does not end
    the loop, the content of the next frame is applied, and the apology is
    never shown.  The message ends with content ["Hi"]. *)
Theorem stream_error_swallowed :
  live_delivery EventJson.parse "1001"
    (FetchResponse true
       (Some (Fragment (EventJson.frame_line "data: {'error':'boom'}")
                (Fragment (EventJson.frame_line "data: {'content':'Hi'}")
                   EndOfStream))))
  = [AwaitFetch; AwaitRead; AwaitRead;
     SetMessages (mkUpdate "1001" (WithContent "Hi"));
     AwaitRead; SetIsLoading false].
Proof. reflexivity. Qed.




(** The updates of a replay that runs to its end. *)
Lemma replay_partitions_chunks (text : string) (c : nat)
    (startDelayMs totalDurationMs : float) (aid mname : string) :
  1 <= c ->
  exists (groups : list (list string)) (acts : list Action),
    simulateStreamingResponse text startDelayMs totalDurationMs c aid mname
    = Some acts
    /\ notifications acts
       = (map (chunk_update aid EmptyString (map chunk_of groups))
              (seq 0 (List.length groups))
          ++ [mkUpdate aid (WithModelName mname)])%list.
Proof.
  intros Hc.
  destruct (simulate_shape text c startDelayMs totalDurationMs aid mname Hc)
    as (groups & Hrun & _).
  eexists groups, _. split; [exact Hrun|].
  cbn [notifications].
  rewrite notifications_app.
  now rewrite stream_loop_notifications, length_map.
Qed.

(** ** The variables of the stream loop *)

Section LoopVariables.

Variable JSON_parse : string -> option Payload.

Lemma process_line_vars (aid acc : string) (d : bool) (line : string) :
  fst (process_line JSON_parse aid (acc, d) line)
  = (acc ++ line_text JSON_parse line, d || line_done JSON_parse line).
Proof.
  unfold process_line, line_text, line_done, applied.
  destruct (startsWith "data: " line);
    [|now rewrite append_empty_r, orb_false_r].
  destruct (JSON_parse (drop 6 line)) as [data|];
    [|now rewrite append_empty_r, orb_false_r].
  destruct (truthy_field (data_error data));
    [now rewrite append_empty_r, orb_false_r|].
  destruct (truthy_field (data_content data)); simpl;
    rewrite ?append_empty_r;
    destruct (data_done data) as [[|]|];
    now rewrite ?orb_true_r, ?orb_false_r.
Qed.

Lemma process_lines_vars (aid : string) (lines : list string) :
  forall (acc : string) (d : bool),
    fst (process_lines JSON_parse aid (acc, d) lines)
    = (acc ++ text_of JSON_parse lines,
       d || existsb (line_done JSON_parse) lines).
Proof.
  induction lines as [|line rest IH]; intros acc d.
  - simpl. unfold text_of. simpl. now rewrite append_empty_r, orb_false_r.
  - cbn [process_lines].
    pose proof (process_line_vars aid acc d line) as H1.
    destruct (process_line JSON_parse aid (acc, d) line) as [[acc1 d1] acts1].
    simpl in H1. inversion H1; subst. specialize (IH (acc ++ line_text JSON_parse line)
                                                     (d || line_done JSON_parse line)).
    destruct (process_lines JSON_parse aid
                (acc ++ line_text JSON_parse line,
                 d || line_done JSON_parse line) rest) as [[acc2 d2] acts2].
    simpl in *. inversion IH; subst. unfold text_of. simpl map.
    now rewrite concat_cons, append_assoc, orb_assoc.
Qed.

End LoopVariables.

(** ** When the model name is shown *)

Lemma Forall_prefix {A : Type} (P : A -> Prop) (k : nat) (l : list A) :
  Forall P l -> Forall P (firstn k l).
Proof.
  revert k. induction l as [|x l IH]; intros k H.
  - now rewrite firstn_nil.
  - destruct k; [constructor|]. inversion H; subst. simpl.
    constructor; [assumption | now apply IH].
Qed.

Lemma content_only_silent (aid : string) (u : Update) :
  content_only aid u -> names_model u = false.
Proof. intros [_ [c Hc]]. unfold names_model. now rewrite Hc. Qed.

(** Updates that name no model leave a message without one. *)
Lemma deliver_silent (us : list Update) (msg : Message) :
  Forall (fun u => names_model u = false) us ->
  modelName msg = None -> modelName (deliver us msg) = None.
Proof.
  revert msg. induction us as [|u us IH]; intros msg H Hm; [exact Hm|].
  inversion H as [|? ? Hu Hus]; subst. unfold deliver in *. simpl.
  apply IH; [assumption|].
  destruct (String.eqb (id msg) (target u)); [|exact Hm].
  unfold names_model in Hu. destruct (change u); simpl; congruence.
Qed.

Lemma notifications_in (acts : list Action) (u : Update) :
  In u (notifications acts) -> In (SetMessages u) acts.
Proof.
  induction acts as [|a acts IH]; intros H; [destruct H|].
  destruct a; simpl in H; try (right; now apply IH); try destruct H.
  - left. now subst.
  - right. now apply IH.
Qed.

Section ModelFacts.

Variable JSON_parse : string -> option Payload.

Lemma process_line_silent (aid : string) (vars : string * bool)
    (line : string) (u : Update) :
  line_model JSON_parse line = None ->
  In (SetMessages u) (snd (process_line JSON_parse aid vars line)) ->
  names_model u = false.
Proof.
  unfold line_model, applied, process_line. destruct vars as [acc isDone].
  destruct (startsWith "data: " line); [|intros _ []].
  destruct (JSON_parse (drop 6 line)) as [data|]; [|intros _ []].
  destruct (truthy_field (data_error data)); [intros _ []|].
  intros ->. destruct (truthy_field (data_content data)); simpl; [|intros []].
  intros [H|[]]. now inversion H.
Qed.

Lemma process_lines_silent (aid : string) (lines : list string) :
  forall (vars : string * bool) (u : Update),
    (forall l, In l lines -> line_model JSON_parse l = None) ->
    In (SetMessages u) (snd (process_lines JSON_parse aid vars lines)) ->
    names_model u = false.
Proof.
  induction lines as [|line rest IH]; intros vars u Hno H; [destruct H|].
  cbn [process_lines] in H.
  destruct (process_line JSON_parse aid vars line) as [vars1 acts1] eqn:E1.
  destruct (process_lines JSON_parse aid vars1 rest) as [vars2 acts2] eqn:E2.
  simpl in H. apply in_app_or in H. destruct H as [H|H].
  - apply (process_line_silent aid vars line); [|now rewrite E1].
    apply Hno. now left.
  - apply (IH vars1); [|now rewrite E2].
    intros l Hl. apply Hno. now right.
Qed.

Lemma read_loop_silent (aid : string) (body : Body) :
  forall (acc : string) (u : Update),
    no_model_read JSON_parse body ->
    In (SetMessages u) (read_loop JSON_parse aid body acc) ->
    names_model u = false.
Proof.
  unfold no_model_read.
  induction body as [| |value rest IH]; intros acc u Hno H;
    cbn [read_loop] in H.
  - destruct H as [H|H]; [discriminate|]. unfold after_loop in H.
    destruct (truthy acc); [destruct H|].
    destruct H as [H|[]]. now inversion H.
  - destruct H as [H|[H|[]]]; [discriminate | now inversion H].
  - destruct H as [H|H]; [discriminate|].
    pose proof (process_lines_vars JSON_parse aid (split LF value) acc false)
      as Hv.
    destruct (process_lines JSON_parse aid (acc, false) (split LF value))
      as [[acc' isDone] acts] eqn:E.
    simpl in Hv. inversion Hv; subst acc' isDone. clear Hv.
    cbn [lines_read] in Hno.
    apply in_app_or in H. destruct H as [H|H].
    + apply (process_lines_silent aid (split LF value) (acc, false));
        [|now rewrite E].
      intros l Hl. apply Hno, in_or_app. now left.
    + destruct (existsb (line_done JSON_parse) (split LF value)).
      * unfold after_loop in H.
        destruct (truthy (acc ++ text_of JSON_parse (split LF value)));
          [destruct H|].
        destruct H as [H|[]]. now inversion H.
      * apply (IH (acc ++ text_of JSON_parse (split LF value))); [|assumption].
        intros l Hl. apply Hno, in_or_app. now right.
Qed.

(** A payload with a model name and no error has the name written on the
    message while its line is processed, done or not. *)
Lemma process_line_names_model (aid : string) (vars : string * bool)
    (line : string) (data : Payload) (m : string) :
  startsWith "data: " line = true ->
  JSON_parse (drop 6 line) = Some data ->
  truthy_field (data_error data) = None ->
  truthy_field (data_model data) = Some m ->
  In (SetMessages (mkUpdate aid (WithModelName m)))
     (snd (process_line JSON_parse aid vars line)).
Proof.
  intros Hpre Hp He Hm. unfold process_line. destruct vars as [acc isDone].
  rewrite Hpre, Hp, He, Hm.
  destruct (truthy_field (data_content data)); simpl; auto.
Qed.

End ModelFacts.

(** C3 (as amended).  In a replay that runs to its end, every update but
    the last changes the content only and the last writes the model name:
    the message carries no model name until all the chunks were shown.  In
    a live delivery the model name is written by an update made while the
    line that carries it is processed, whatever follows in the stream; as
    long as no line that is read and applied (it has the prefix, its payload
    parses and has no error) carries a model name, no live update writes
    one, the updates made on errors included.  Lines of fragments that are
    not read, after a done line, do not count. *)
Theorem model_name_disclosure (JSON_parse : string -> option Payload)
    (text : string) (c : nat) (startDelayMs totalDurationMs : float)
    (aid mname : string) (date : N)
    (vars : string * bool) (line : string) (data : Payload) (m : string)
    (ok : bool) (body : Body) :
  1 <= c ->
  startsWith "data: " line = true ->
  JSON_parse (drop 6 line) = Some data ->
  truthy_field (data_error data) = None ->
  truthy_field (data_model data) = Some m ->
  no_model_read JSON_parse body ->
  (exists (acts : list Action) (us : list Update),
      simulateStreamingResponse text startDelayMs totalDurationMs c aid mname
      = Some acts
      /\ notifications acts = (us ++ [mkUpdate aid (WithModelName mname)])%list
      /\ Forall (content_only aid) us
      /\ (forall k, k <= List.length us ->
            modelName (deliver (firstn k (notifications acts))
                               (placeholder aid date)) = None)
      /\ modelName (deliver (notifications acts) (placeholder aid date))
         = Some mname)
  /\ In (SetMessages (mkUpdate aid (WithModelName m)))
        (snd (process_line JSON_parse aid vars line))
  /\ (forall k,
        modelName
          (deliver (firstn k (notifications
                                (live_delivery JSON_parse aid
                                   (FetchResponse ok (Some body)))))
                   (placeholder aid date)) = None).
Proof.
  intros Hc Hpre Hp He Hm Hno. split; [|split].
  - destruct (replay_partitions_chunks text c startDelayMs totalDurationMs
                aid mname Hc) as (groups & acts & Hrun & Hnote).
    exists acts, (map (chunk_update aid EmptyString (map chunk_of groups))
                      (seq 0 (List.length groups))).
    pose proof (chunk_updates_content_only aid EmptyString (map chunk_of groups)
                  (seq 0 (List.length groups))) as Hall.
    repeat split; try assumption.
    + intros k Hk. rewrite Hnote, firstn_app.
      replace (k - _) with 0 by lia. simpl firstn at 2. rewrite app_nil_r.
      apply deliver_silent; [|reflexivity].
      apply Forall_prefix.
      eapply Forall_impl; [apply content_only_silent | exact Hall].
    + rewrite Hnote, deliver_app.
      pose proof (deliver_id
                    (map (chunk_update aid EmptyString (map chunk_of groups))
                         (seq 0 (List.length groups)))
                    (placeholder aid date)) as Hid.
      unfold deliver at 1. simpl. rewrite Hid. simpl.
      now rewrite String.eqb_refl.
  - now apply (process_line_names_model JSON_parse aid vars line data m).
  - intros k. apply deliver_silent; [|reflexivity].
    apply Forall_prefix, Forall_forall. intros u Hu.
    apply notifications_in in Hu. unfold live_delivery in Hu.
    destruct Hu as [Hu|Hu]; [discriminate|].
    apply in_app_or in Hu. destruct Hu as [Hu|[Hu|[]]]; [|discriminate].
    destruct ok.
    + now apply (read_loop_silent JSON_parse aid body EmptyString u Hno).
    + destruct Hu as [Hu|[]]. now inversion Hu.
Qed.

(** A live stream whose only model name sits in a fragment that comes
    after the done line and is never read. *)
Lemma model_name_disclosure_witness :
  (exists (acts : list Action) (us : list Update),
      simulateStreamingResponse "a b c d" 100%float 300%float 2 "1001" "X"
      = Some acts
      /\ notifications acts = (us ++ [mkUpdate "1001" (WithModelName "X")])%list
      /\ Forall (content_only "1001") us
      /\ (forall k, k <= List.length us ->
            modelName (deliver (firstn k (notifications acts))
                               (placeholder "1001" 1000)) = None)
      /\ modelName (deliver (notifications acts) (placeholder "1001" 1000))
         = Some "X")
  /\ In (SetMessages (mkUpdate "1001" (WithModelName "gpt")))
        (snd (process_line EventJson.parse "1001" (EmptyString, false)
                (EventJson.frame "data: {'content':'Hi','model':'gpt'}")))
  /\ (forall k,
        modelName
          (deliver (firstn k (notifications
                                (live_delivery EventJson.parse "1001"
                                   (FetchResponse true
                                      (Some (Fragment
                                               (EventJson.frame_line
                                                  "data: {'content':'Hi','done':true}")
                                               (Fragment
                                                  (EventJson.frame_line
                                                     "data: {'model':'gpt'}")
                                                  EndOfStream)))))))
                   (placeholder "1001" 1000)) = None).
Proof.
  apply (model_name_disclosure EventJson.parse "a b c d" 2 100%float 300%float
           "1001" "X" 1000 (EmptyString, false)
           (EventJson.frame "data: {'content':'Hi','model':'gpt'}")
           (mkPayload (Some "Hi") (Some "gpt") None None) "gpt" true
           (Fragment (EventJson.frame_line "data: {'content':'Hi','done':true}")
              (Fragment (EventJson.frame_line "data: {'model':'gpt'}")
                 EndOfStream))).
  - lia.
  - reflexivity.
  - reflexivity.
  - reflexivity.
  - reflexivity.
  - intros l Hl. vm_compute in Hl.
    destruct Hl as [<-|[<-|[]]]; reflexivity.
Defined.

(** C3, counterexample.  A live stream whose first frame carries the
    content [Hi] and the model [gpt], and whose second frame carries more
    content and [done]: the second update writes the model name, and an
    update of the content follows it. *)
Lemma live_model_shown_early :
  notifications
    (live_delivery EventJson.parse "1001"
       (FetchResponse true
          (Some (Fragment
                   (EventJson.frame_line "data: {'content':'Hi','model':'gpt'}")
                   (Fragment
                      (EventJson.frame_line
                         "data: {'content':' there','done':true}")
                      EndOfStream)))))
  = [mkUpdate "1001" (WithContent "Hi");
     mkUpdate "1001" (WithModelName "gpt");
     mkUpdate "1001" (WithContent "Hi there")]
  /\ deliver [mkUpdate "1001" (WithContent "Hi");
              mkUpdate "1001" (WithModelName "gpt")] (placeholder "1001" 1000)
     = mkMessage "1001" assistant "Hi" 1000 (Some "gpt").
Proof. split; reflexivity. Qed.

(** ** Reset during a replay *)

Lemma run_to_suspension_updates (acts : list Action) :
  forall st1 st2 : State,
    snd (fst (run_to_suspension acts st1)) = snd (fst (run_to_suspension acts st2))
    /\ snd (run_to_suspension acts st1) = snd (run_to_suspension acts st2).
Proof.
  induction acts as [|a acts IH]; intros st1 st2; [split; reflexivity|].
  destruct a; cbn [run_to_suspension suspension]; try (split; reflexivity).
  - specialize (IH (run_action (SetMessages u) st1)
                   (run_action (SetMessages u) st2)).
    destruct (run_to_suspension acts (run_action (SetMessages u) st1))
      as [[s1 us1] r1].
    destruct (run_to_suspension acts (run_action (SetMessages u) st2))
      as [[s2 us2] r2].
    simpl in *. destruct IH as [-> ->]. split; reflexivity.
  - specialize (IH (run_action (SetIsLoading b) st1)
                   (run_action (SetIsLoading b) st2)).
    destruct (run_to_suspension acts (run_action (SetIsLoading b) st1))
      as [[s1 us1] r1].
    destruct (run_to_suspension acts (run_action (SetIsLoading b) st2))
      as [[s2 us2] r2].
    simpl in *. destruct IH as [-> ->]. split; reflexivity.
Qed.

(** What a suspended call does next does not depend on the state. *)
Lemma resume_updates (st1 st2 : State) (acts : list Action) :
  snd (resume (mkMachine st1 acts)) = snd (resume (mkMachine st2 acts))
  /\ pending (fst (resume (mkMachine st1 acts)))
     = pending (fst (resume (mkMachine st2 acts))).
Proof.
  unfold resume. simpl. destruct acts as [|a rest]; [split; reflexivity|].
  destruct (suspension a); [|split; reflexivity].
  pose proof (run_to_suspension_updates rest st1 st2) as [H1 H2].
  destruct (run_to_suspension rest st1) as [[s1 us1] r1].
  destruct (run_to_suspension rest st2) as [[s2 us2] r2].
  simpl in *. now subst.
Qed.

(** Updates aimed at an id that no message has leave the list as it is. *)
Lemma run_foreign (acts : list Action) (aid : string) :
  (forall u, In (SetMessages u) acts -> target u = aid) ->
  forall st : State,
    (forall msg, In msg (messages st) -> id msg <> aid) ->
    messages (run acts st) = messages st.
Proof.
  intros Ht st Hid. rewrite run_messages, apply_updates_map.
  rewrite <- (map_id (messages st)) at 2. apply map_ext_in.
  intros msg Hmsg. apply deliver_other. intros u Hu.
  apply notifications_in, Ht in Hu. rewrite Hu.
  intros E. apply (Hid msg Hmsg). now symmetry.
Qed.

(** C9 (as amended).  A reset while a replay is suspended replaces the
    conversation and leaves the call where it is: its suspensions stay
    pending, and when they complete the call makes the same updates as it
    would have made without the reset, raising no error.  Each of these
    updates compares against the id of the old placeholder, so a message
    list in which no message has that id, the list after the reset among
    them, comes out of the rest of the call unchanged. *)
Theorem reset_leaves_call_running (m : Machine) (date : N) (aid : string) :
  (forall u, In (SetMessages u) (pending m) -> target u = aid) ->
  aid <> "1" ->
  pending (reset date m) = pending m
  /\ snd (resume (reset date m)) = snd (resume m)
  /\ pending (fst (resume (reset date m))) = pending (fst (resume m))
  /\ messages (run (pending m) (state (reset date m))) = initialMessages date
  /\ forall st : State,
       (forall msg, In msg (messages st) -> id msg <> aid) ->
       messages (run (pending m) st) = messages st.
Proof.
  intros Ht Hone. destruct m as [st acts]. simpl in Ht.
  split; [reflexivity|].
  pose proof (resume_updates (handleReset date st) st acts) as [Hu Hp].
  split; [exact Hu|]. split; [exact Hp|]. split.
  - simpl. rewrite (run_foreign acts aid Ht); [reflexivity|].
    simpl. intros msg [<-|[]]. simpl. congruence.
  - apply run_foreign, Ht.
Qed.

Lemma reset_leaves_call_running_witness :
  pending (reset 2000 sample_machine) = pending sample_machine
  /\ snd (resume (reset 2000 sample_machine)) = snd (resume sample_machine)
  /\ pending (fst (resume (reset 2000 sample_machine)))
     = pending (fst (resume sample_machine))
  /\ messages (run (pending sample_machine) (state (reset 2000 sample_machine)))
     = initialMessages 2000
  /\ forall st : State,
       (forall msg, In msg (messages st) -> id msg <> "1001") ->
       messages (run (pending sample_machine) st) = messages st.
Proof.
  apply (reset_leaves_call_running sample_machine 2000 "1001").
  - intros u Hu. vm_compute in Hu.
    destruct Hu as [Hu|[Hu|[Hu|[Hu|[]]]]]; try discriminate;
      inversion Hu; reflexivity.
  - discriminate.
Defined.

(** C9, counterexample.  The replay of the sample script is reset while it
    waits between its two chunks: the delay stays pending, and when it
    completes the call still makes its two remaining updates. *)
Lemma reset_does_not_cancel :
  pending (reset 2000 sample_machine)
  = [Sleep 100%float;
     SetMessages (mkUpdate "1001" (WithContent "a b c d"));
     SetMessages (mkUpdate "1001" (WithModelName "X"));
     SetIsLoading false]
  /\ snd (resume (reset 2000 sample_machine))
     = [mkUpdate "1001" (WithContent "a b c d");
        mkUpdate "1001" (WithModelName "X")]
  /\ snd (resume (reset 2000 sample_machine)) <> [].
Proof.
  split; [reflexivity|]. split; [reflexivity | discriminate].
Qed.

(** * Further properties of the component *)

(** ** What an accepted submission does *)

(** An accepted submission registers the two messages, sets the loading
    flag and goes on with the replay or with the live request. *)
Lemma accepted_submission (JSON_parse : string -> option Payload) (env : Env)
    (customMessage : option string) (st : State) :
  isLoading st = false ->
  truthy (messageToSend customMessage st) = true ->
  handleSendMessage JSON_parse env customMessage st
  = (mkState (messages st ++ [userMessage_of env customMessage st;
                              placeholder (assistantMessageId_of env)
                                          (date_assistant env)])%list
             EmptyString true (modelType st) false,
     match route env customMessage st with
     | Some dataToUse => replay_delivery (assistantMessageId_of env) dataToUse
     | None => live_delivery JSON_parse (assistantMessageId_of env) (fetched env)
     end).
Proof.
  intros Hload Hmsg. unfold handleSendMessage, route. rewrite Hmsg, Hload.
  simpl.
  destruct (if offlineMode_stored env
            then zavaScenarios env (messageToSend customMessage st)
            else None); reflexivity.
Qed.

(** ** The kinds of actions of each path *)

(** Settles a [Forall] over an explicit list of actions, each a suspension
    of the expected kind or an update. *)
Ltac kinds :=
  repeat first
    [ apply Forall_nil
    | apply Forall_cons;
      [ first [ now left | right; eexists; reflexivity | eexists; reflexivity ]
      | ] ].

Lemma stream_loop_kinds (chunks : list string) :
  forall (delay : float) (aid acc : string),
    Forall (fun a => on_timer a = true \/ update_action a)
           (stream_loop chunks delay aid acc).
Proof.
  induction chunks as [|c rest IH]; intros delay aid acc; [constructor|].
  simpl. constructor; [right; eexists; reflexivity|].
  destruct rest as [|c' rest]; [constructor|].
  constructor; [now left | apply IH].
Qed.

Lemma simulate_kinds (text : string) (startDelayMs totalDurationMs : float)
    (c : nat) (aid mname : string) (acts : list Action) :
  simulateStreamingResponse text startDelayMs totalDurationMs c aid mname
  = Some acts ->
  Forall (fun a => on_timer a = true \/ update_action a) acts.
Proof.
  unfold simulateStreamingResponse.
  destruct (split_chunks (split " " text) c) as [chunks|]; [|discriminate].
  intros H. inversion H; subst. constructor; [now left|].
  apply Forall_app. split; [apply stream_loop_kinds | kinds].
Qed.

Section LiveKinds.

Variable JSON_parse : string -> option Payload.

Lemma process_line_kinds (aid : string) (vars : string * bool) (line : string) :
  Forall update_action (snd (process_line JSON_parse aid vars line)).
Proof.
  unfold process_line. destruct vars as [acc isDone].
  destruct (startsWith "data: " line); [|constructor].
  destruct (JSON_parse (drop 6 line)) as [data|]; [|constructor].
  destruct (truthy_field (data_error data)); [constructor|].
  destruct (truthy_field (data_content data));
    destruct (truthy_field (data_model data)); simpl; kinds.
Qed.

Lemma process_lines_kinds (aid : string) (lines : list string) :
  forall vars : string * bool,
    Forall update_action (snd (process_lines JSON_parse aid vars lines)).
Proof.
  induction lines as [|line rest IH]; intros vars; [constructor|].
  simpl. pose proof (process_line_kinds aid vars line) as H1.
  destruct (process_line JSON_parse aid vars line) as [vars1 acts1].
  specialize (IH vars1).
  destruct (process_lines JSON_parse aid vars1 rest) as [vars2 acts2].
  simpl in *. apply Forall_app. now split.
Qed.

Lemma after_loop_kinds (aid acc : string) :
  Forall update_action (after_loop aid acc).
Proof.
  unfold after_loop. destruct (truthy acc); kinds.
Qed.

Lemma read_loop_kinds (aid : string) (body : Body) :
  forall acc : string,
    Forall (fun a => on_network a = true \/ update_action a)
           (read_loop JSON_parse aid body acc).
Proof.
  assert (Hup : forall l, Forall update_action l ->
                  Forall (fun a => on_network a = true \/ update_action a) l).
  { intros l. apply Forall_impl. intros a Ha. now right. }
  induction body as [| |value rest IH]; intros acc; simpl;
    (constructor; [now left|]).
  - apply Hup, after_loop_kinds.
  - kinds.
  - pose proof (process_lines_kinds aid (split LF value) (acc, false)) as Hp.
    destruct (process_lines JSON_parse aid (acc, false) (split LF value))
      as [[acc' isDone] acts].
    simpl in Hp. apply Forall_app. split; [now apply Hup|].
    destruct isDone; [apply Hup, after_loop_kinds | apply IH].
Qed.

(** The live path up to its [finally]. *)
Lemma live_delivery_kinds (aid : string) (res : FetchResult) :
  exists pre,
    live_delivery JSON_parse aid res = (pre ++ [SetIsLoading false])%list
    /\ Forall (fun a => on_network a = true \/ update_action a) pre.
Proof.
  unfold live_delivery.
  exists (AwaitFetch ::
          match res with
          | FetchResponse true (Some body) =>
              read_loop JSON_parse aid body EmptyString
          | _ => catch_live aid
          end).
  split; [destruct res as [|[|] [body|]]; reflexivity|].
  constructor; [now left|].
  destruct res as [|[|] [body|]]; try (unfold catch_live; kinds).
  apply read_loop_kinds.
Qed.

End LiveKinds.

(** The replay path up to its [finally]. *)
Lemma replay_delivery_kinds (aid : string) (dataToUse : option ReplayData) :
  exists pre,
    replay_delivery aid dataToUse = (pre ++ [SetIsLoading false])%list
    /\ Forall (fun a => on_timer a = true \/ update_action a) pre.
Proof.
  unfold replay_delivery. destruct dataToUse as [d|].
  - destruct (simulateStreamingResponse (response d) (startStreamingMs d)
                (finishStreamingMs d) (wordsPerChunk d) aid (model d))
      as [acts|] eqn:E.
    + exists acts. split; [reflexivity|].
      exact (simulate_kinds _ _ _ _ _ _ _ E).
    + exists [Sleep (startStreamingMs d);
              SetMessages (mkUpdate aid (WithContentNoModel apology_replay))].
      split; [reflexivity | kinds].
  - exists [SetMessages (mkUpdate aid (WithContentNoModel apology_replay))].
    split; [reflexivity | kinds].
Qed.

Lemma run_keeps_loading (acts : list Action) :
  Forall (fun a => sets_loading a = false) acts ->
  forall st : State, isLoading (run acts st) = isLoading st.
Proof.
  induction acts as [|a acts IH]; intros H st; [reflexivity|].
  inversion H as [|? ? Hs Hrest]; subst.
  destruct a; simpl in *; try congruence; now rewrite IH.
Qed.

Lemma quiet_of_kinds (P : Action -> bool) (acts : list Action) :
  (forall a, P a = true -> sets_loading a = false) ->
  Forall (fun a => P a = true \/ update_action a) acts ->
  Forall (fun a => sets_loading a = false) acts.
Proof.
  intros HP. apply Forall_impl. intros a [Ha|[u ->]]; [now apply HP|].
  reflexivity.
Qed.

(** The call of an accepted submission: actions that leave the loading
    flag alone, then the [finally] that clears it. *)
Lemma delivery_ends_with_finally (JSON_parse : string -> option Payload)
    (env : Env) (customMessage : option string) (st : State) :
  isLoading st = false ->
  truthy (messageToSend customMessage st) = true ->
  exists pre : list Action,
    snd (handleSendMessage JSON_parse env customMessage st)
    = (pre ++ [SetIsLoading false])%list
    /\ Forall (fun a => sets_loading a = false) pre.
Proof.
  intros Hload Hmsg.
  rewrite (accepted_submission JSON_parse env customMessage st Hload Hmsg).
  cbn [snd].
  destruct (route env customMessage st) as [dataToUse|].
  - destruct (replay_delivery_kinds (assistantMessageId_of env) dataToUse)
      as (pre & E & K).
    exists pre. split; [exact E|].
    apply (quiet_of_kinds on_timer); [|exact K].
    intros [] H; try discriminate. reflexivity.
  - destruct (live_delivery_kinds JSON_parse (assistantMessageId_of env)
                (fetched env)) as (pre & E & K).
    exists pre. split; [exact E|].
    apply (quiet_of_kinds on_network); [|exact K].
    intros [] H; try discriminate; reflexivity.
Qed.

(** X1.  Provided the awaited request and every awaited read settle, by
    resolving or rejecting, which is all that the responses of the model
    describe, every accepted submission sets the loading flag when its call
    first suspends, no action of the call touches the flag until the last
    one, and the last action, the [finally], clears it.  This holds on the
    live path and on the replay path, the script without an entry for the
    mode and the script whose chunking raises included. *)
Theorem loading_flag_released_last (JSON_parse : string -> option Payload)
    (env : Env) (customMessage : option string) (st : State) :
  isLoading st = false ->
  truthy (messageToSend customMessage st) = true ->
  exists pre : list Action,
    snd (handleSendMessage JSON_parse env customMessage st)
    = (pre ++ [SetIsLoading false])%list
    /\ Forall (fun a => sets_loading a = false) pre
    /\ (forall k,
          isLoading (run (firstn k pre)
                         (fst (handleSendMessage JSON_parse env customMessage st)))
          = true)
    /\ isLoading (run (snd (handleSendMessage JSON_parse env customMessage st))
                      (fst (handleSendMessage JSON_parse env customMessage st)))
       = false.
Proof.
  intros Hload Hmsg.
  destruct (delivery_ends_with_finally JSON_parse env customMessage st
              Hload Hmsg) as (pre & E & Q).
  exists pre. split; [exact E|]. split; [exact Q|]. split.
  - intros k. rewrite run_keeps_loading by now apply Forall_prefix.
    now rewrite (accepted_submission JSON_parse env customMessage st Hload Hmsg).
  - rewrite E, run_app. reflexivity.
Qed.

Lemma loading_flag_released_last_witness :
  exists pre : list Action,
    snd (handleSendMessage EventJson.parse
           (sample_env false (FetchResponse true (Some sample_stream))) None
           sample_state)
    = (pre ++ [SetIsLoading false])%list
    /\ Forall (fun a => sets_loading a = false) pre
    /\ (forall k,
          isLoading (run (firstn k pre)
                         (fst (handleSendMessage EventJson.parse
                                 (sample_env false
                                    (FetchResponse true (Some sample_stream)))
                                 None sample_state)))
          = true)
    /\ isLoading (run (snd (handleSendMessage EventJson.parse
                              (sample_env false
                                 (FetchResponse true (Some sample_stream)))
                              None sample_state))
                      (fst (handleSendMessage EventJson.parse
                              (sample_env false
                                 (FetchResponse true (Some sample_stream)))
                              None sample_state)))
       = false.
Proof.
  apply (loading_flag_released_last EventJson.parse
           (sample_env false (FetchResponse true (Some sample_stream))) None
           sample_state); reflexivity.
Defined.

(** ** Replay and live requests do not mix *)

(** X2.  An accepted submission is answered from the replay table exactly
    when the stored offline flag is set and the lookup of the exact text in
    the table yields a value.  The call then never awaits the network, and
    it starts by sleeping the start delay of the script for the mode, or,
    when the scenario has no entry for the mode, consists of the apology
    update and the [finally].  In every other case the call starts by
    awaiting the request and never sleeps on a timer. *)
Theorem delivery_waits_on_one_source (JSON_parse : string -> option Payload)
    (env : Env) (customMessage : option string) (st : State) :
  isLoading st = false ->
  truthy (messageToSend customMessage st) = true ->
  match (if offlineMode_stored env
         then zavaScenarios env (messageToSend customMessage st)
         else None) with
  | Some scenarioData =>
      Forall (fun a => on_network a = false)
             (snd (handleSendMessage JSON_parse env customMessage st))
      /\ match (match modelType st with
                | Router => router scenarioData
                | Benchmark => benchmark scenarioData
                end) with
         | Some d =>
             exists rest,
               snd (handleSendMessage JSON_parse env customMessage st)
               = Sleep (startStreamingMs d) :: rest
         | None =>
             snd (handleSendMessage JSON_parse env customMessage st)
             = [SetMessages (mkUpdate (assistantMessageId_of env)
                               (WithContentNoModel apology_replay));
                SetIsLoading false]
         end
  | None =>
      Forall (fun a => on_timer a = false)
             (snd (handleSendMessage JSON_parse env customMessage st))
      /\ exists rest,
           snd (handleSendMessage JSON_parse env customMessage st)
           = AwaitFetch :: rest
  end.
Proof.
  intros Hload Hmsg.
  rewrite (accepted_submission JSON_parse env customMessage st Hload Hmsg).
  cbn [snd]. unfold route.
  destruct (if offlineMode_stored env
            then zavaScenarios env (messageToSend customMessage st)
            else None) as [scenarioData|].
  - set (dataToUse := match modelType st with
                      | Router => router scenarioData
                      | Benchmark => benchmark scenarioData
                      end).
    split.
    + destruct (replay_delivery_kinds (assistantMessageId_of env) dataToUse)
        as (pre & E & K).
      rewrite E. apply Forall_app. split; [|repeat constructor].
      eapply Forall_impl; [|exact K].
      intros a [Ha|[u ->]]; [now destruct a | reflexivity].
    + destruct dataToUse as [d|]; [|reflexivity].
      unfold replay_delivery, simulateStreamingResponse.
      destruct (split_chunks (split " " (response d)) (wordsPerChunk d));
        eexists; reflexivity.
  - split; [|unfold live_delivery; eexists; reflexivity].
    destruct (live_delivery_kinds JSON_parse (assistantMessageId_of env)
                (fetched env)) as (pre & E & K).
    rewrite E. apply Forall_app. split; [|repeat constructor].
    eapply Forall_impl; [|exact K].
    intros a [Ha|[u ->]]; [now destruct a | reflexivity].
Qed.

(** The sample text typed offline, answered from the table, and typed with
    the offline flag not set, answered by a request. *)
Lemma delivery_waits_on_one_source_witness :
  (Forall (fun a => on_network a = false)
          (snd (handleSendMessage EventJson.parse (sample_env true FetchThrows)
                  None sample_state))
   /\ exists rest,
        snd (handleSendMessage EventJson.parse (sample_env true FetchThrows)
               None sample_state)
        = Sleep 100%float :: rest)
  /\ (Forall (fun a => on_timer a = false)
             (snd (handleSendMessage EventJson.parse
                     (sample_env false FetchThrows) None sample_state))
      /\ exists rest,
           snd (handleSendMessage EventJson.parse
                  (sample_env false FetchThrows) None sample_state)
           = AwaitFetch :: rest).
Proof.
  split.
  - exact (delivery_waits_on_one_source EventJson.parse
             (sample_env true FetchThrows) None sample_state eq_refl eq_refl).
  - exact (delivery_waits_on_one_source EventJson.parse
             (sample_env false FetchThrows) None sample_state eq_refl eq_refl).
Defined.

(** ** What a live stream leaves on the message *)

Lemma concat_app_empty (l1 l2 : list string) :
  String.concat EmptyString (l1 ++ l2)
  = String.concat EmptyString l1 ++ String.concat EmptyString l2.
Proof.
  induction l1 as [|x l1 IH]; [reflexivity|].
  change ((x :: l1) ++ l2)%list with (x :: (l1 ++ l2))%list.
  now rewrite !concat_cons, IH, append_assoc.
Qed.

Lemma message_eta (msg : Message) :
  msg = mkMessage (id msg) (role msg) (content msg) (timestamp msg)
                  (modelName msg).
Proof. now destruct msg. Qed.

Section StreamFacts.

Variable JSON_parse : string -> option Payload.

Lemma process_line_deliver (aid acc : string) (d : bool) (line : string)
    (msg : Message) :
  id msg = aid -> content msg = acc ->
  deliver (notifications (snd (process_line JSON_parse aid (acc, d) line))) msg
  = mkMessage aid (role msg) (acc ++ line_text JSON_parse line) (timestamp msg)
      match line_model JSON_parse line with
      | Some m => Some m
      | None => modelName msg
      end.
Proof.
  intros Hid Hc. destruct msg as [i r c t m]. simpl in Hid, Hc. subst i c.
  unfold process_line, line_text, line_model, applied.
  destruct (startsWith "data: " line);
    [|simpl; now rewrite append_empty_r].
  destruct (JSON_parse (drop 6 line)) as [data|];
    [|simpl; now rewrite append_empty_r].
  destruct (truthy_field (data_error data));
    [simpl; now rewrite append_empty_r|].
  destruct (truthy_field (data_content data));
    destruct (truthy_field (data_model data)); unfold deliver; simpl;
    rewrite ?String.eqb_refl; simpl; rewrite ?String.eqb_refl; simpl;
    now rewrite ?append_empty_r.
Qed.

Lemma process_lines_deliver (aid : string) (lines : list string) :
  forall (acc : string) (d : bool) (msg : Message),
    id msg = aid -> content msg = acc ->
    deliver (notifications (snd (process_lines JSON_parse aid (acc, d) lines)))
            msg
    = mkMessage aid (role msg) (acc ++ text_of JSON_parse lines) (timestamp msg)
                (model_after JSON_parse lines (modelName msg)).
Proof.
  induction lines as [|line rest IH]; intros acc d msg Hid Hc.
  - simpl. unfold text_of, model_after. simpl. rewrite append_empty_r.
    subst. apply message_eta.
  - cbn [process_lines].
    pose proof (process_line_vars JSON_parse aid acc d line) as H1.
    pose proof (process_line_deliver aid acc d line msg Hid Hc) as H2.
    pose proof (process_line_kinds JSON_parse aid (acc, d) line) as K.
    destruct (process_line JSON_parse aid (acc, d) line) as [[acc1 d1] acts1].
    simpl in H1, H2, K. inversion H1; subst acc1 d1.
    specialize (IH (acc ++ line_text JSON_parse line)
                   (d || line_done JSON_parse line)
                   (deliver (notifications acts1) msg)).
    destruct (process_lines JSON_parse aid
                (acc ++ line_text JSON_parse line,
                 d || line_done JSON_parse line) rest) as [[acc2 d2] acts2].
    simpl in *.
    rewrite notifications_app.
    rewrite deliver_app, IH by (rewrite H2; reflexivity).
    rewrite H2. simpl. unfold text_of, model_after. simpl map.
    now rewrite concat_cons, append_assoc.
Qed.

Lemma after_loop_deliver (aid acc : string) (msg : Message) :
  id msg = aid -> content msg = acc ->
  deliver (notifications (after_loop aid acc)) msg
  = if truthy acc then msg
    else mkMessage aid (role msg) apology_empty (timestamp msg) None.
Proof.
  intros Hid Hc. unfold after_loop. destruct (truthy acc); [reflexivity|].
  unfold deliver. simpl. now rewrite Hid, String.eqb_refl.
Qed.

(** The message after the reads of a body, from a message that shows what
    was accumulated so far. *)
Lemma read_loop_deliver (aid : string) (body : Body) :
  forall (acc : string) (msg : Message),
    id msg = aid -> content msg = acc ->
    deliver (notifications (read_loop JSON_parse aid body acc)) msg
    = if completes JSON_parse body then
        if truthy (acc ++ text_of JSON_parse (lines_read JSON_parse body))
        then mkMessage aid (role msg)
               (acc ++ text_of JSON_parse (lines_read JSON_parse body))
               (timestamp msg)
               (model_after JSON_parse (lines_read JSON_parse body)
                            (modelName msg))
        else mkMessage aid (role msg) apology_empty (timestamp msg) None
      else mkMessage aid (role msg) apology_live (timestamp msg) None.
Proof.
  induction body as [| |value rest IH]; intros acc msg Hid Hc.
  - cbn [read_loop notifications completes lines_read].
    rewrite after_loop_deliver by assumption.
    unfold text_of, model_after. simpl. rewrite append_empty_r.
    destruct (truthy acc); [|reflexivity]. subst. apply message_eta.
  - cbn [read_loop notifications completes]. unfold catch_live, deliver.
    simpl. now rewrite Hid, String.eqb_refl.
  - cbn [read_loop notifications completes lines_read].
    pose proof (process_lines_vars JSON_parse aid (split LF value) acc false) as Hv.
    pose proof (process_lines_deliver aid (split LF value) acc false msg Hid Hc)
      as Hd.
    pose proof (process_lines_kinds JSON_parse aid (split LF value) (acc, false))
      as K.
    destruct (process_lines JSON_parse aid (acc, false) (split LF value))
      as [[acc' isDone] acts].
    simpl in Hv, Hd, K. inversion Hv; subst acc' isDone.
    rewrite notifications_app.
    rewrite deliver_app, Hd.
    destruct (existsb (line_done JSON_parse) (split LF value)).
    + rewrite after_loop_deliver by reflexivity.
      rewrite app_nil_r. cbn [orb].
      destruct (truthy (acc ++ text_of JSON_parse (split LF value)));
        reflexivity.
    + rewrite IH by reflexivity. cbn [orb role timestamp modelName].
      unfold text_of, model_after.
      rewrite map_app, concat_app_empty, fold_left_app, append_assoc.
      reflexivity.
Qed.

(** The updates that the lines of a fragment make do not depend on the
    done flag they start with. *)
Lemma process_lines_updates_any_flag (aid : string) (lines : list string) :
  forall (acc : string) (d d' : bool),
    snd (process_lines JSON_parse aid (acc, d) lines)
    = snd (process_lines JSON_parse aid (acc, d') lines).
Proof.
  induction lines as [|line rest IH]; intros acc d d'; [reflexivity|].
  cbn [process_lines].
  assert (E : snd (process_line JSON_parse aid (acc, d) line)
              = snd (process_line JSON_parse aid (acc, d') line)).
  { unfold process_line. destruct (startsWith "data: " line); [|reflexivity].
    destruct (JSON_parse (drop 6 line)) as [data|]; [|reflexivity].
    destruct (truthy_field (data_error data)); [reflexivity|].
    destruct (truthy_field (data_content data)); reflexivity. }
  pose proof (process_line_vars JSON_parse aid acc d line) as H1.
  pose proof (process_line_vars JSON_parse aid acc d' line) as H2.
  destruct (process_line JSON_parse aid (acc, d) line) as [v1 a1].
  destruct (process_line JSON_parse aid (acc, d') line) as [v2 a2].
  simpl in E, H1, H2. subst v1 v2 a2.
  specialize (IH (acc ++ line_text JSON_parse line)
                 (d || line_done JSON_parse line)
                 (d' || line_done JSON_parse line)).
  destruct (process_lines JSON_parse aid
              (acc ++ line_text JSON_parse line,
               d || line_done JSON_parse line) rest) as [w1 b1].
  destruct (process_lines JSON_parse aid
              (acc ++ line_text JSON_parse line,
               d' || line_done JSON_parse line) rest) as [w2 b2].
  simpl in *. now subst.
Qed.

End StreamFacts.

Lemma live_notifications (JSON_parse : string -> option Payload)
    (aid : string) (body : Body) :
  notifications (live_delivery JSON_parse aid (FetchResponse true (Some body)))
  = notifications (read_loop JSON_parse aid body EmptyString).
Proof.
  unfold live_delivery. cbn [notifications].
  rewrite notifications_app. simpl. now rewrite app_nil_r.
Qed.

(** X3.  When an accepted submission takes the live path, the response is
    a success with a readable body, and the reads reach a done line or the
    end of the stream, the message is left with the content fields of the
    applied lines (those with the prefix, a payload that parses and no
    error) laid end to end in order, up to the end of the fragment that
    holds the first done line, and with the model name announced last among
    those lines; when that text is empty the message is left with the
    could-not-generate text and no model name. *)
Theorem live_reply_is_concatenation (JSON_parse : string -> option Payload)
    (env : Env) (customMessage : option string) (st : State) (body : Body) :
  isLoading st = false ->
  truthy (messageToSend customMessage st) = true ->
  route env customMessage st = None ->
  fetched env = FetchResponse true (Some body) ->
  completes JSON_parse body = true ->
  deliver (notifications
             (snd (handleSendMessage JSON_parse env customMessage st)))
          (placeholder (assistantMessageId_of env) (date_assistant env))
  = if truthy (text_of JSON_parse (lines_read JSON_parse body))
    then mkMessage (assistantMessageId_of env) assistant
           (text_of JSON_parse (lines_read JSON_parse body))
           (date_assistant env)
           (model_after JSON_parse (lines_read JSON_parse body) None)
    else mkMessage (assistantMessageId_of env) assistant apology_empty
           (date_assistant env) None.
Proof.
  intros Hload Hmsg Hroute Hfetch Hdone.
  rewrite (accepted_submission JSON_parse env customMessage st Hload Hmsg).
  rewrite Hroute, Hfetch. cbn [snd]. rewrite live_notifications.
  rewrite (read_loop_deliver JSON_parse (assistantMessageId_of env) body
             EmptyString) by reflexivity.
  rewrite Hdone. reflexivity.
Qed.

Lemma live_reply_is_concatenation_witness :
  deliver (notifications
             (snd (handleSendMessage EventJson.parse
                     (sample_env false (FetchResponse true (Some sample_stream)))
                     None sample_state)))
          (placeholder "1001" 1000)
  = mkMessage "1001" assistant "Hi there" 1000 (Some "gpt").
Proof.
  exact (live_reply_is_concatenation EventJson.parse
           (sample_env false (FetchResponse true (Some sample_stream)))
           None sample_state sample_stream
           eq_refl eq_refl eq_refl eq_refl eq_refl).
Defined.

(** X4.  When an accepted submission takes the live path and a read fails
    before a done line or the end of the stream was reached, whatever was
    shown until then is replaced: the message is left with the apology as
    content and no model name. *)
Theorem read_failure_discards_reply (JSON_parse : string -> option Payload)
    (env : Env) (customMessage : option string) (st : State) (body : Body) :
  isLoading st = false ->
  truthy (messageToSend customMessage st) = true ->
  route env customMessage st = None ->
  fetched env = FetchResponse true (Some body) ->
  completes JSON_parse body = false ->
  deliver (notifications
             (snd (handleSendMessage JSON_parse env customMessage st)))
          (placeholder (assistantMessageId_of env) (date_assistant env))
  = mkMessage (assistantMessageId_of env) assistant apology_live
              (date_assistant env) None.
Proof.
  intros Hload Hmsg Hroute Hfetch Hfail.
  rewrite (accepted_submission JSON_parse env customMessage st Hload Hmsg).
  rewrite Hroute, Hfetch. cbn [snd]. rewrite live_notifications.
  rewrite (read_loop_deliver JSON_parse (assistantMessageId_of env) body
             EmptyString) by reflexivity.
  rewrite Hfail. reflexivity.
Qed.

Lemma read_failure_discards_reply_witness :
  deliver (notifications
             (snd (handleSendMessage EventJson.parse
                     (sample_env false (FetchResponse true (Some broken_stream)))
                     None sample_state)))
          (placeholder "1001" 1000)
  = mkMessage "1001" assistant apology_live 1000 None.
Proof.
  exact (read_failure_discards_reply EventJson.parse
           (sample_env false (FetchResponse true (Some broken_stream)))
           None sample_state broken_stream
           eq_refl eq_refl eq_refl eq_refl eq_refl).
Defined.

(** X5.  Once a fragment holds a done line, nothing that comes after the
    fragment is read, a failing read included; the lines that follow the
    done line inside the fragment make the same updates as they would
    without it. *)
Theorem done_line_ends_reading (JSON_parse : string -> option Payload)
    (aid : string) (value : string) (rest rest' : Body) (acc : string)
    (lines : list string) :
  existsb (line_done JSON_parse) (split LF value) = true ->
  read_loop JSON_parse aid (Fragment value rest) acc
  = read_loop JSON_parse aid (Fragment value rest') acc
  /\ snd (process_lines JSON_parse aid (acc, true) lines)
     = snd (process_lines JSON_parse aid (acc, false) lines).
Proof.
  intros Hdone. split; [|apply process_lines_updates_any_flag].
  cbn [read_loop].
  pose proof (process_lines_vars JSON_parse aid (split LF value) acc false)
    as Hv.
  destruct (process_lines JSON_parse aid (acc, false) (split LF value))
    as [[acc' isDone] acts].
  simpl in Hv. inversion Hv; subst. now rewrite Hdone.
Qed.

Lemma done_line_ends_reading_witness :
  read_loop EventJson.parse "1001"
    (Fragment (EventJson.frame_line "data: {'content':'Hi','done':true}")
       ReadFails) EmptyString
  = read_loop EventJson.parse "1001"
      (Fragment (EventJson.frame_line "data: {'content':'Hi','done':true}")
         EndOfStream) EmptyString
  /\ snd (process_lines EventJson.parse "1001" (EmptyString, true)
            [EventJson.frame "data: {'content':'Hi'}"])
     = snd (process_lines EventJson.parse "1001" (EmptyString, false)
              [EventJson.frame "data: {'content':'Hi'}"]).
Proof.
  apply (done_line_ends_reading EventJson.parse "1001"
           (EventJson.frame_line "data: {'content':'Hi','done':true}")
           ReadFails EndOfStream EmptyString
           [EventJson.frame "data: {'content':'Hi'}"]).
  reflexivity.
Defined.

(** ** The send button and the key press *)

Lemma accepted_changes_state (JSON_parse : string -> option Payload)
    (env : Env) (customMessage : option string) (st : State) :
  isLoading st = false ->
  truthy (messageToSend customMessage st) = true ->
  handleSendMessage JSON_parse env customMessage st <> (st, []).
Proof.
  intros Hload Hmsg E.
  rewrite (accepted_submission JSON_parse env customMessage st Hload Hmsg) in E.
  apply (f_equal (fun r => List.length (messages (fst r)))) in E.
  simpl in E. rewrite length_app in E. simpl in E. lia.
Qed.

Lemma send_button_disabled_rejects (JSON_parse : string -> option Payload)
    (env : Env) (st : State) :
  send_disabled st = true ->
  handleSendMessage JSON_parse env None st = (st, []).
Proof.
  unfold send_disabled. intros H. unfold handleSendMessage.
  simpl messageToSend. now rewrite orb_comm, H.
Qed.

Lemma send_button_rejects_disabled (JSON_parse : string -> option Payload)
    (env : Env) (st : State) :
  handleSendMessage JSON_parse env None st = (st, []) ->
  send_disabled st = true.
Proof.
  unfold send_disabled. intros H.
  destruct (isLoading st) eqn:Hload; [reflexivity|].
  destruct (truthy (trim (inputValue st))) eqn:Hmsg; [|reflexivity].
  exfalso. now apply (accepted_changes_state JSON_parse env None st).
Qed.

(** X6.  The send button is disabled exactly when a submission of the
    typed input would be rejected: whenever the button can be pressed, the
    press registers the message. *)
Theorem send_button_matches_handler (JSON_parse : string -> option Payload)
    (env : Env) (st : State) :
  send_disabled st = true
  <-> handleSendMessage JSON_parse env None st = (st, []).
Proof.
  split;
    [apply send_button_disabled_rejects | apply send_button_rejects_disabled].
Qed.

(** X7.  A key press submits the typed input exactly when the key is Enter
    without Shift and the send button is enabled; the default action of the
    key is prevented for every Enter without Shift, submitted or not. *)
Theorem key_press_submits_on_enter (JSON_parse : string -> option Payload)
    (env : Env) (e : KeyboardEvent) (st : State) :
  (snd (handleKeyPress JSON_parse env e st) <> (st, [])
   <-> key e = "Enter" /\ shiftKey e = false /\ send_disabled st = false)
  /\ (fst (handleKeyPress JSON_parse env e st) = true
      <-> key e = "Enter" /\ shiftKey e = false).
Proof.
  unfold handleKeyPress.
  destruct (String.eqb_spec (key e) "Enter") as [Hk|Hk];
    destruct (shiftKey e); simpl; split; split;
    try (intros [? [? ?]]; congruence); try (intros [? ?]; congruence);
    try congruence; try (intros; now repeat split).
  - intros H. repeat split; try assumption.
    destruct (send_disabled st) eqn:D; [|reflexivity].
    apply (send_button_disabled_rejects JSON_parse env) in D. congruence.
  - intros (_ & _ & D) E.
    apply (send_button_rejects_disabled JSON_parse env) in E. congruence.
Qed.

(** ** Suggested questions *)

(** X8.  While no delivery is in flight, pressing a suggestion whose text
    is not empty and has no white space at its ends does what typing that
    text and pressing send does: the draft in the input is ignored and
    cleared.  While a delivery is in flight the press only hides the
    suggestions. *)
Theorem suggestion_is_typed_text (JSON_parse : string -> option Payload)
    (env : Env) (messageText : string) (st : State) :
  truthy messageText = true ->
  trim messageText = messageText ->
  handleSuggestedMessage JSON_parse env messageText st
  = if isLoading st
    then (mkState (messages st) (inputValue st) true (modelType st) false, [])
    else handleSendMessage JSON_parse env None
           (mkState (messages st) messageText false (modelType st)
                    (showSuggestions st)).
Proof.
  intros Ht Htrim. unfold handleSuggestedMessage.
  destruct (isLoading st) eqn:Hload.
  - unfold handleSendMessage. cbn [isLoading]. now rewrite orb_true_r.
  - rewrite !accepted_submission; cbn [isLoading messageToSend inputValue];
      rewrite ?Ht, ?Htrim; try assumption; try reflexivity.
    unfold route, userMessage_of. cbn [messageToSend inputValue messages modelType].
    now rewrite Ht, Htrim.
Qed.

Lemma suggestion_is_typed_text_witness :
  handleSuggestedMessage EventJson.parse (sample_env true FetchThrows)
    "hello" (mkState (initialMessages 0) "a draft" false Router true)
  = handleSendMessage EventJson.parse (sample_env true FetchThrows) None
      (mkState (initialMessages 0) "hello" false Router true).
Proof.
  exact (suggestion_is_typed_text EventJson.parse (sample_env true FetchThrows)
           "hello" (mkState (initialMessages 0) "a draft" false Router true)
           eq_refl eq_refl).
Defined.

(** ** What the user sees at the end of a replay *)

(** The message a replay that runs to its end leaves. *)
Lemma replay_final_message (text : string) (c : nat)
    (startDelayMs totalDurationMs : float) (aid mname : string) :
  1 <= c ->
  exists acts : list Action,
    simulateStreamingResponse text startDelayMs totalDurationMs c aid mname
    = Some acts
    /\ forall msg, id msg = aid ->
         deliver (notifications acts) msg
         = mkMessage aid (role msg) (trim text) (timestamp msg) (Some mname).
Proof.
  intros Hc.
  destruct (simulate_shape text c startDelayMs totalDurationMs aid mname Hc)
    as (groups & Hrun & Hcat & Hlen & Hsize & _).
  pose proof (groups_not_nil text c groups Hc Hlen) as Hpos.
  assert (Hne : forall g, In g groups -> g <> []).
  { intros g Hg E. apply Hsize in Hg. subst g. simpl in Hg. lia. }
  assert (Hflat : String.concat EmptyString (map chunk_of groups) = text ++ " ").
  { unfold chunk_of. rewrite concat_rendered; [|intros ->; simpl in Hpos; lia
                                               |assumption].
    now rewrite Hcat, join_split. }
  eexists. split; [exact Hrun|].
  - intros msg Hid. cbn [notifications].
    rewrite notifications_app.
    rewrite stream_loop_notifications, length_map.
    destruct (List.length groups) as [|n] eqn:En; [lia|].
    rewrite seq_S, map_app, <- app_assoc. simpl app.
    unfold chunk_update at 2. rewrite deliver_final by assumption.
    rewrite <- En, <- (length_map chunk_of groups), firstn_all, Hflat.
    cbn [append]. rewrite trim_space. f_equal.
    + induction (map (chunk_update aid EmptyString (map chunk_of groups))
                     (seq 0 n)) as [|u us IH] using rev_ind; [reflexivity|].
      rewrite deliver_app. unfold deliver at 1. simpl.
      destruct (String.eqb (id (deliver us msg)) (target u));
        [destruct (change u); simpl; exact IH | exact IH].
    + induction (map (chunk_update aid EmptyString (map chunk_of groups))
                     (seq 0 n)) as [|u us IH] using rev_ind; [reflexivity|].
      rewrite deliver_app. unfold deliver at 1. simpl.
      destruct (String.eqb (id (deliver us msg)) (target u));
        [destruct (change u); simpl; exact IH | exact IH].
Qed.

(** X9.  When an accepted submission is answered from a script with at
    least one word per chunk, the call ends with the loading flag cleared
    and the placeholder, still second after the messages that were there,
    carrying the reply trimmed and the model name of the script.  Its bubble
    shows that text with the model line under it; when the reply is empty or
    all white space the bubble keeps showing the spinner. *)
Theorem replay_end_view (JSON_parse : string -> option Payload)
    (env : Env) (customMessage : option string) (st : State) (d : ReplayData) :
  isLoading st = false ->
  truthy (messageToSend customMessage st) = true ->
  route env customMessage st = Some (Some d) ->
  1 <= wordsPerChunk d ->
  isLoading (run (snd (handleSendMessage JSON_parse env customMessage st))
                 (fst (handleSendMessage JSON_parse env customMessage st)))
  = false
  /\ exists msg : Message,
       nth_error
         (messages
            (run (snd (handleSendMessage JSON_parse env customMessage st))
                 (fst (handleSendMessage JSON_parse env customMessage st))))
         (S (List.length (messages st))) = Some msg
       /\ msg = mkMessage (assistantMessageId_of env) assistant
                  (trim (response d)) (date_assistant env) (Some (model d))
       /\ bubble msg
          = if truthy (trim (response d))
            then Shown (trim (response d))
                       (if truthy (model d) then Some (model d) else None)
            else Spinner.
Proof.
  intros Hload Hmsg Hroute Hc.
  rewrite (accepted_submission JSON_parse env customMessage st Hload Hmsg).
  rewrite Hroute. cbn [fst snd]. unfold replay_delivery.
  destruct (replay_final_message (response d) (wordsPerChunk d)
              (startStreamingMs d) (finishStreamingMs d)
              (assistantMessageId_of env) (model d) Hc)
    as (acts & Hrun & Hfinal).
  rewrite Hrun. split.
  - now rewrite run_app.
  - eexists. split; [|split; [reflexivity|]].
    + rewrite run_messages, notifications_app.
      cbn [notifications messages]. rewrite app_nil_r, apply_updates_map.
      rewrite nth_error_map, nth_error_app2 by lia.
      replace (S (List.length (messages st)) - List.length (messages st))
        with 1 by lia.
      cbn [nth_error option_map]. now rewrite Hfinal.
    + unfold bubble. cbn [content role modelName]. reflexivity.
Qed.

Lemma replay_end_view_witness :
  isLoading (run (snd (handleSendMessage EventJson.parse
                         (sample_env true FetchThrows) None sample_state))
                 (fst (handleSendMessage EventJson.parse
                         (sample_env true FetchThrows) None sample_state)))
  = false
  /\ exists msg : Message,
       nth_error
         (messages
            (run (snd (handleSendMessage EventJson.parse
                         (sample_env true FetchThrows) None sample_state))
                 (fst (handleSendMessage EventJson.parse
                         (sample_env true FetchThrows) None sample_state))))
         (S (List.length (messages sample_state))) = Some msg
       /\ msg = mkMessage "1001" assistant "a b c d" 1000 (Some "X")
       /\ bubble msg = Shown "a b c d" (Some "X").
Proof.
  exact (replay_end_view EventJson.parse (sample_env true FetchThrows) None
           sample_state sample_script eq_refl eq_refl eq_refl
           (le_S 1 1 (le_n 1))).
Defined.

(** ** A delivery rewrites its placeholder and nothing else *)

Lemma toString_inj (n n' : N) : toString n = toString n' -> n = n'.
Proof.
  assert (Hnil : forall m : N, N.to_uint m <> Decimal.Nil).
  { intros [|p]; [discriminate | apply DecimalPos.Unsigned.to_uint_nonnil]. }
  unfold toString. intros H.
  apply (f_equal NilZero.uint_of_string) in H.
  rewrite !NilZero.usu in H by apply Hnil. inversion H as [H'].
  now apply DecimalN.Unsigned.to_uint_inj.
Qed.

Lemma delivery_targets (JSON_parse : string -> option Payload) (env : Env)
    (customMessage : option string) (st : State) (u : Update) :
  In u (notifications (snd (handleSendMessage JSON_parse env customMessage st))) ->
  target u = assistantMessageId_of env.
Proof.
  intros Hin. apply notifications_in in Hin. unfold handleSendMessage in Hin.
  destruct (negb (truthy (messageToSend customMessage st)) || isLoading st);
    [destruct Hin|].
  destruct (if offlineMode_stored env
            then zavaScenarios env (messageToSend customMessage st)
            else None) as [scenarioData|]; simpl in Hin.
  - now apply replay_delivery_targets in Hin.
  - now apply live_delivery_targets in Hin.
Qed.

(** X10.  When the clock does not go back between the two reads that make
    the ids, and no message already in the list has the id of the
    placeholder, the whole call of an accepted submission changes the list
    in one way only: the messages that were there and the user message stay
    as they are, in place, and the placeholder after them is rewritten by
    the updates of the call. *)
Theorem delivery_rewrites_placeholder_only
    (JSON_parse : string -> option Payload) (env : Env)
    (customMessage : option string) (st : State) :
  isLoading st = false ->
  truthy (messageToSend customMessage st) = true ->
  (now_user env <= now_assistant env)%N ->
  (forall msg, In msg (messages st) -> id msg <> assistantMessageId_of env) ->
  messages (run (snd (handleSendMessage JSON_parse env customMessage st))
                (fst (handleSendMessage JSON_parse env customMessage st)))
  = (messages st
     ++ [userMessage_of env customMessage st;
         deliver (notifications
                    (snd (handleSendMessage JSON_parse env customMessage st)))
                 (placeholder (assistantMessageId_of env)
                              (date_assistant env))])%list.
Proof.
  intros Hload Hmsg Hclock Hfresh.
  rewrite run_messages, apply_updates_map.
  pose proof (delivery_targets JSON_parse env customMessage st) as Ht.
  rewrite (accepted_submission JSON_parse env customMessage st Hload Hmsg) in *.
  cbn [fst snd messages] in *. rewrite map_app. f_equal.
  - rewrite <- (map_id (messages st)) at 2. apply map_ext_in.
    intros msg Hin. apply deliver_other. intros u Hu.
    rewrite (Ht u Hu). intros E. now apply (Hfresh msg Hin).
  - cbn [map]. f_equal. apply deliver_other. intros u Hu.
    rewrite (Ht u Hu). unfold userMessage_of, assistantMessageId_of.
    cbn [id]. intros E. apply toString_inj in E. lia.
Qed.

Lemma delivery_rewrites_placeholder_only_witness :
  messages (run (snd (handleSendMessage EventJson.parse
                        (sample_env false (FetchResponse true (Some sample_stream)))
                        None sample_state))
                (fst (handleSendMessage EventJson.parse
                        (sample_env false (FetchResponse true (Some sample_stream)))
                        None sample_state)))
  = (initialMessages 0
     ++ [mkMessage "1000" user "hello" 1000 None;
         mkMessage "1001" assistant "Hi there" 1000 (Some "gpt")])%list.
Proof.
  refine (delivery_rewrites_placeholder_only EventJson.parse
            (sample_env false (FetchResponse true (Some sample_stream)))
            None sample_state eq_refl eq_refl _ _).
  - discriminate.
  - intros msg [<-|[]]. discriminate.
Defined.

(** ** A scenario without an entry for the mode *)

(** X11.  When the offline flag is set and the table has a scenario for
    the text but no entry for the selected mode, the accepted submission is
    answered at once, with no timer and no request: one update leaves the
    replay apology as content and no model name, and the loading flag is
    cleared. *)
Theorem replay_without_mode_entry (JSON_parse : string -> option Payload)
    (env : Env) (customMessage : option string) (st : State) :
  isLoading st = false ->
  truthy (messageToSend customMessage st) = true ->
  route env customMessage st = Some None ->
  snd (handleSendMessage JSON_parse env customMessage st)
  = [SetMessages (mkUpdate (assistantMessageId_of env)
                    (WithContentNoModel apology_replay));
     SetIsLoading false]
  /\ deliver (notifications
                (snd (handleSendMessage JSON_parse env customMessage st)))
             (placeholder (assistantMessageId_of env) (date_assistant env))
     = mkMessage (assistantMessageId_of env) assistant apology_replay
                 (date_assistant env) None.
Proof.
  intros Hload Hmsg Hroute.
  rewrite (accepted_submission JSON_parse env customMessage st Hload Hmsg).
  rewrite Hroute. cbn [snd replay_delivery]. split; [reflexivity|].
  unfold deliver, placeholder. simpl. now rewrite String.eqb_refl.
Qed.

Lemma replay_without_mode_entry_witness :
  snd (handleSendMessage EventJson.parse (sample_env true FetchThrows) None
         benchmark_state)
  = [SetMessages (mkUpdate "1001" (WithContentNoModel apology_replay));
     SetIsLoading false]
  /\ deliver (notifications
                (snd (handleSendMessage EventJson.parse
                        (sample_env true FetchThrows) None benchmark_state)))
             (placeholder "1001" 1000)
     = mkMessage "1001" assistant apology_replay 1000 None.
Proof.
  exact (replay_without_mode_entry EventJson.parse (sample_env true FetchThrows)
           None benchmark_state eq_refl eq_refl eq_refl).
Defined.

(** ** A call that outlives its conversation *)

(** X12.  The call of an accepted submission clears the loading flag at
    its end from wherever it is resumed, whatever the state it then finds:
    after a reset and a new accepted submission, the end of the old call
    clears the flag that the new submission has set, while the new delivery
    is still in flight. *)
Theorem stale_call_clears_flag (JSON_parse : string -> option Payload)
    (env : Env) (customMessage : option string) (st : State)
    (past rest : list Action) (st2 : State) :
  isLoading st = false ->
  truthy (messageToSend customMessage st) = true ->
  snd (handleSendMessage JSON_parse env customMessage st) = (past ++ rest)%list ->
  rest <> [] ->
  isLoading (run rest st2) = false.
Proof.
  intros Hload Hmsg Hsplit Hrest.
  destruct (delivery_ends_with_finally JSON_parse env customMessage st
              Hload Hmsg) as (pre & E & Q).
  destruct (exists_last Hrest) as (rest' & a & ->).
  rewrite E, app_assoc in Hsplit. apply app_inj_tail in Hsplit.
  destruct Hsplit as [Hpre <-]. now rewrite run_app.
Qed.

(** The first suggestion is pressed offline, its replay is reset between
    its two chunks, and the second suggestion is pressed: the flag is set
    by the second submission and cleared by the end of the first call. *)
Lemma stale_call_clears_flag_witness :
  isLoading
    (fst (handleSuggestedMessage EventJson.parse (demo_env 3000)
            second_suggestion (state (reset 2000 demo_machine))))
  = true
  /\ isLoading
       (run (pending (reset 2000 demo_machine))
            (fst (handleSuggestedMessage EventJson.parse (demo_env 3000)
                    second_suggestion (state (reset 2000 demo_machine)))))
     = false.
Proof.
  split; [reflexivity|].
  refine (stale_call_clears_flag EventJson.parse (demo_env 1000)
            (Some first_suggestion)
            (mkState (initialMessages 0) EmptyString false Router false)
            [Sleep 100%float; SetMessages (mkUpdate "1001" (WithContent "a b"))]
            (pending (reset 2000 demo_machine)) _ eq_refl eq_refl eq_refl _).
  discriminate.
Defined.
